(** * Aya Share: audio-to-video pipeline (scripts/app.py)

    A shallow embedding of the four functions of [scripts/app.py]
    ([transcribe_chunks], [split_audio], [generate_video] and
    [process_full_pipeline]) and the properties of their control flow.

    Python values are modelled as the code has them:
    - [str] is a list of Unicode code points;
    - [float] is an IEEE-754 binary64 number, through the Standard Library's
      [SpecFloat] at precision 53 and maximal exponent 1024 (round to nearest,
      ties to even), so that [/], [<], [<=] and [min] are the operations the
      interpreter runs;
    - [int] is [Z];
    - a [dict] built by [json.load] or by a dict display is an association list
      in insertion order;
    - exceptions are values carrying their class and their [str(e)];
    - the libraries the script calls ([requests], [pydub], [moviepy]) and the
      file system are inputs of the model: each function takes a record of what
      those calls answer, and returns its result together with the trace of the
      side effects it performed. *)

From Stdlib Require Import ZArith NArith List String Ascii Bool Lia.
From Stdlib Require Import Permutation Sorted Finite.
From Stdlib Require Import SpecFloat.
From Stdlib Require Decimal DecimalNat.
Import ListNotations.

Local Open Scope Z_scope.
Local Open Scope list_scope.

(* ================================================================= *)
(** ** Python strings *)

Module PyStr.

Definition codepoint := N.
Definition pystr := list codepoint.

(** An ASCII literal of the source as a Python string. *)
Definition lit (s : string) : pystr :=
  map N_of_ascii (list_ascii_of_string s).

Fixpoint eqb (a b : pystr) : bool :=
  match a, b with
  | [], [] => true
  | x :: a', y :: b' => N.eqb x y && eqb a' b'
  | _, _ => false
  end.

(** [str.isspace] on one character: the code points CPython's
    [_PyUnicode_IsWhitespace] accepts. *)
Definition isspace (c : codepoint) : bool :=
  ((9 <=? c) && (c <=? 13) || (28 <=? c) && (c <=? 32)
   || (c =? 133) || (c =? 160) || (c =? 5760)
   || (8192 <=? c) && (c <=? 8202)
   || (c =? 8232) || (c =? 8233) || (c =? 8239) || (c =? 8287)
   || (c =? 12288))%N.

Fixpoint lstrip (s : pystr) : pystr :=
  match s with
  | [] => []
  | c :: s' => if isspace c then lstrip s' else s
  end.

Definition rstrip (s : pystr) : pystr := rev (lstrip (rev s)).

(** [s.strip()] *)
Definition strip (s : pystr) : pystr := rstrip (lstrip s).

(** [s.startswith(p)] *)
Fixpoint startswith (s p : pystr) : bool :=
  match p, s with
  | [], _ => true
  | x :: p', y :: s' => N.eqb x y && startswith s' p'
  | _ :: _, [] => false
  end.

(** [s.endswith(p)] *)
Definition endswith (s p : pystr) : bool := startswith (rev s) (rev p).

(** [a < b] on strings: lexicographic on code points. *)
Fixpoint ltb (a b : pystr) : bool :=
  match a, b with
  | _, [] => false
  | [], _ :: _ => true
  | x :: a', y :: b' =>
      if (x <? y)%N then true
      else if (y <? x)%N then false
      else ltb a' b'
  end.

Definition leb (a b : pystr) : bool := negb (ltb b a).

(** [a <= b] as a relation. *)
Definition le (a b : pystr) : Prop := leb a b = true.

Definition digit (d : N) : codepoint := (48 + d)%N.

Fixpoint of_uint (u : Decimal.uint) : pystr :=
  match u with
  | Decimal.Nil => []
  | Decimal.D0 u' => digit 0 :: of_uint u'
  | Decimal.D1 u' => digit 1 :: of_uint u'
  | Decimal.D2 u' => digit 2 :: of_uint u'
  | Decimal.D3 u' => digit 3 :: of_uint u'
  | Decimal.D4 u' => digit 4 :: of_uint u'
  | Decimal.D5 u' => digit 5 :: of_uint u'
  | Decimal.D6 u' => digit 6 :: of_uint u'
  | Decimal.D7 u' => digit 7 :: of_uint u'
  | Decimal.D8 u' => digit 8 :: of_uint u'
  | Decimal.D9 u' => digit 9 :: of_uint u'
  end.

(** [str(n)] / [f"{n}"] for a natural number: its decimal digits. *)
Definition of_nat (n : nat) : pystr := of_uint (Nat.to_uint n).

(** [os.path.join(a, p)] for one component, as [posixpath.join]. *)
Definition path_join (a p : pystr) : pystr :=
  if startswith p (lit "/") then p
  else if (match a with [] => true | _ => false end) || endswith a (lit "/")
       then a ++ p
       else a ++ lit "/" ++ p.

End PyStr.

Import PyStr.

(* ================================================================= *)
(** ** Python floats and numbers *)

Module PyNum.

Definition prec : Z := 53.
Definition emax : Z := 1024.

Definition float := spec_float.

(** [float(z)] for an [int]: the nearest binary64, ties to even; [None]
    stands for [OverflowError] ("int too large to convert to float"). *)
Definition float_of_int (z : Z) : option float :=
  match binary_normalize prec emax z 0 false with
  | S754_infinity _ => None
  | f => Some f
  end.

Definition fdiv (x y : float) : float := SFdiv prec emax x y.
Definition fltb (x y : float) : bool := SFltb x y.
Definition fleb (x y : float) : bool := SFleb x y.
Definition feqb (x y : float) : bool := SFeqb x y.

(** The literals of the source. *)
Definition f0 : float := S754_zero false.                         (* 0.0 *)
Definition f1 : float := S754_finite false 4503599627370496 (-52). (* 1.0 *)
Definition f3 : float := S754_finite false 6755399441055744 (-51). (* 3.0 *)
Definition f1000 : float := S754_finite false 8796093022208000 (-43). (* 1000.0 *)
Definition f0_8 : float := S754_finite false 7205759403792794 (-53). (* 0.8 *)
Definition f0_5 : float := S754_finite false 4503599627370496 (-53). (* 0.5 *)
Definition f0_3 : float := S754_finite false 5404319552844595 (-54). (* 0.3 *)

(** A Python number: [int] or [float]. *)
Inductive pynum :=
| PInt (z : Z)
| PFloat (f : float).

(** [x > 0] with the [int] literal [0]. *)
Definition gt0 (x : pynum) : bool :=
  match x with
  | PInt z => 0 <? z
  | PFloat f => fltb f0 f
  end.

(** [x == 0] with the [int] literal [0]. *)
Definition eq0 (x : pynum) : bool :=
  match x with
  | PInt z => z =? 0
  | PFloat f => feqb f f0
  end.

(** [min(a, b)] on two floats: [b] when [b < a], else [a]. *)
Definition fmin (a b : float) : float := if fltb b a then b else a.

(** [signed s f]: [f] is a zero, a finite number or an infinity of sign
    [s] ([true] is the minus sign); never a NaN. *)
Definition signed (s : bool) (f : float) : Prop :=
  match f with
  | S754_zero s' | S754_infinity s' | S754_finite s' _ _ => s' = s
  | S754_nan => False
  end.

(** [math.isnan(f)] *)
Definition is_nan (f : float) : bool :=
  match f with S754_nan => true | _ => false end.

End PyNum.

Import PyNum.

(* ================================================================= *)
(** ** Exceptions, results and JSON values *)

(** The classes of the exceptions the script raises or handles.  Every value
    of [exn] is an instance of a subclass of [Exception]; [Timeout] and
    [RequestException] are those of [requests] (the first a subclass of the
    second, and both subclasses of [OSError]). *)
Inductive exn_class :=
| FileNotFoundError
| ValueError
| JSONDecodeError
| AttributeError
| TypeError
| OverflowError
| OSError
| Timeout
| RequestException
| RuntimeError.

Record exn := Exn { exn_cls : exn_class; exn_str : pystr }.

(** [isinstance(e, requests.Timeout)] *)
Definition is_Timeout (e : exn) : bool :=
  match exn_cls e with Timeout => true | _ => false end.

(** [isinstance(e, requests.RequestException)] *)
Definition is_RequestException (e : exn) : bool :=
  match exn_cls e with Timeout | RequestException => true | _ => false end.

(** The outcome of a call: a value, or a raised exception. *)
Inductive result (A : Type) :=
| Ok (a : A)
| Raise (e : exn).
Arguments Ok {A} a.
Arguments Raise {A} e.

Definition bind {A B} (r : result A) (k : A -> result B) : result B :=
  match r with
  | Ok a => k a
  | Raise e => Raise e
  end.

Declare Scope py_scope.
Delimit Scope py_scope with py.
Notation "x <- e ;; k" := (bind e (fun x => k))
  (at level 61, e at next level, right associativity) : py_scope.
Notation "e ;;; k" := (bind e (fun _ => k))
  (at level 61, right associativity) : py_scope.
Open Scope py_scope.

(** [if c: raise e] *)
Definition raise_if (c : bool) (e : exn) : result unit :=
  if c then Raise e else Ok tt.

(** What [json.load] returns, and what [json.dump] is given. *)
#[local] Set Warnings "-register-all".
Inductive json :=
| JNull
| JBool (b : bool)
| JInt (z : Z)
| JFloat (f : float)
| JString (s : pystr)
| JArray (l : list json)
| JObject (kv : list (pystr * json)).

Module Py.

(** [type(v).__name__] *)
Definition type_name (v : json) : pystr :=
  match v with
  | JNull => lit "NoneType"
  | JBool _ => lit "bool"
  | JInt _ => lit "int"
  | JFloat _ => lit "float"
  | JString _ => lit "str"
  | JArray _ => lit "list"
  | JObject _ => lit "dict"
  end.

Definition no_attribute (v : json) (attr : string) : exn :=
  Exn AttributeError
    (lit "'" ++ type_name v ++ lit "' object has no attribute '"
         ++ lit attr ++ lit "'").

(** [bool(v)] *)
Definition truthy (v : json) : bool :=
  match v with
  | JNull => false
  | JBool b => b
  | JInt z => negb (z =? 0)
  | JFloat f => negb (feqb f f0)
  | JString s => match s with [] => false | _ => true end
  | JArray l => match l with [] => false | _ => true end
  | JObject kv => match kv with [] => false | _ => true end
  end.

Definition no_len (v : json) : exn :=
  Exn TypeError (lit "object of type '" ++ type_name v ++ lit "' has no len()").

(** [len(v)] *)
Definition len (v : json) : result nat :=
  match v with
  | JString s => Ok (List.length s)
  | JArray l => Ok (List.length l)
  | JObject kv => Ok (List.length kv)
  | _ => Raise (no_len v)
  end.

(** The items [for item in v] runs over. *)
Definition iter (v : json) : result (list json) :=
  match v with
  | JArray l => Ok l
  | JObject kv => Ok (map (fun p => JString (fst p)) kv)
  | JString s => Ok (map (fun c => JString [c]) s)
  | _ => Raise (Exn TypeError
                  (lit "'" ++ type_name v ++ lit "' object is not iterable"))
  end.

(** Lookup in a dict (each key is held once). *)
Fixpoint dict_lookup (kv : list (pystr * json)) (k : pystr) : option json :=
  match kv with
  | [] => None
  | (k', v) :: kv' => if PyStr.eqb k' k then Some v else dict_lookup kv' k
  end.

(** [d[k] = v] *)
Fixpoint dict_set (kv : list (pystr * json)) (k : pystr) (v : json)
  : list (pystr * json) :=
  match kv with
  | [] => [(k, v)]
  | (k', v') :: kv' =>
      if PyStr.eqb k' k then (k', v) :: kv' else (k', v') :: dict_set kv' k v
  end.

(** [item.get(k, default)] *)
Definition get (item : json) (k : string) (default : json) : result json :=
  match item with
  | JObject kv =>
      Ok (match dict_lookup kv (lit k) with Some v => v | None => default end)
  | _ => Raise (no_attribute item "get")
  end.

(** [v.strip()] *)
Definition strip (v : json) : result pystr :=
  match v with
  | JString s => Ok (PyStr.strip s)
  | _ => Raise (no_attribute v "strip")
  end.

Definition int_too_large : exn :=
  Exn OverflowError (lit "int too large to convert to float").

(** [v / y] for a float [y]. ([bool] is a subclass of [int].) *)
Definition truediv_float (v : json) (y : float) : result float :=
  match v with
  | JFloat x => Ok (fdiv x y)
  | JInt z =>
      match float_of_int z with
      | Some x => Ok (fdiv x y)
      | None => Raise int_too_large
      end
  | JBool b => Ok (fdiv (if b then f1 else f0) y)
  | _ => Raise (Exn TypeError
                  (lit "unsupported operand type(s) for /: '" ++ type_name v
                       ++ lit "' and 'float'"))
  end.

End Py.

(* ================================================================= *)
(** ** Manifest records, as the data model describes them *)

Module Manifest.

(** The value under key [k] of a record, when the record has the key. *)
Definition field (item : json) (k : string) : option json :=
  match item with
  | JObject kv => Py.dict_lookup kv (lit k)
  | _ => None
  end.

(** Empty or whitespace-only text. *)
Definition blank (text : pystr) : bool := forallb isspace text.

(** A JSON number that [/ 1000.0] accepts: a float, or an integer in the
    range of the floats. *)
Definition is_number (v : json) : bool :=
  match v with
  | JFloat _ => true
  | JInt z => match float_of_int z with Some _ => true | None => false end
  | _ => false
  end.

Definition is_string (v : json) : bool :=
  match v with JString _ => true | _ => false end.

(** [v <= 0] for a JSON number. *)
Definition le0 (v : json) : bool :=
  match v with
  | JFloat f => fleb f f0
  | JInt z => z <=? 0
  | _ => false
  end.

(** [millis n v]: the JSON number [v] is [n], as an integer or as a float. *)
Definition millis (n : Z) (v : json) : Prop :=
  v = JInt n \/ exists f, float_of_int n = Some f /\ v = JFloat f.

(** A field that is absent, or present with a value accepted by [ok]. *)
Definition absent_or (ok : json -> bool) (v : option json) : bool :=
  match v with
  | None => true
  | Some x => ok x
  end.

End Manifest.

(* ================================================================= *)
(** ** Side effects *)

(** What a run leaves behind, in the order it happened. *)
Inductive event :=
| MakeDirs (dir : pystr)                        (* os.makedirs *)
| ExportWav (path : pystr) (duration_ms : Z)   (* chunk.export *)
| Post (url path : pystr)                      (* requests.post *)
| WriteJson (path : pystr) (data : json)       (* open(path, "w") + json.dump *)
| WriteFailed (path : pystr)   (* a write to [path] that raised: the file may
                                 be left created, truncated or partial *)
| WriteVideo (path : pystr) (clips : nat).     (* write_videofile *)

(** The files a trace opened for writing, whether the write ended well or
    raised, in their order. *)
Definition touched (trace : list event) : list pystr :=
  flat_map (fun ev => match ev with
                      | ExportWav path _ | WriteJson path _
                      | WriteVideo path _ | WriteFailed path => [path]
                      | _ => []
                      end) trace.

(** The files a trace wrote, in their order. *)
Definition written (trace : list event) : list pystr :=
  flat_map (fun ev => match ev with
                      | ExportWav path _ | WriteJson path _
                      | WriteVideo path _ => [path]
                      | _ => []
                      end) trace.

(* ================================================================= *)
(** ** [generate_video] *)

Module Video.

(** The effects of [moviepy.vfx] the script applies. *)
Inductive effect :=
| FadeIn (d : pynum)
| FadeOut (d : pynum).

(** [ImageClip(bg_path, duration=duration)] *)
Record image_clip := ImageClip {
  img_path : pystr;
  img_duration : float;
  img_size : Z * Z
}.

(** The [TextClip] of one caption, after [with_duration], [with_position]
    and [with_effects]. *)
Record text_clip := TextClip {
  txt_text : pystr;
  txt_font : pystr;
  txt_font_size : Z;
  txt_color : pystr;
  txt_size : Z * Z;
  txt_duration : float;
  txt_position : pystr;
  txt_effects : list effect
}.

(** [CompositeVideoClip([bg_clip, txt_clip]).with_duration(duration)] *)
Record composite_clip := CompositeVideoClip {
  comp_bg : image_clip;
  comp_txt : text_clip;
  comp_duration : float
}.

(** What the file system and [moviepy] answer to the calls of
    [generate_video].  Building an [ImageClip] or a [TextClip] reads a file
    and may raise; [with_duration], [with_position], [with_effects] and
    [CompositeVideoClip] only build objects. *)
Record env := Env {
  path_exists : pystr -> bool;              (* os.path.exists *)
  json_load : pystr -> result json;         (* open + json.load *)
  load_image : pystr -> float -> result (Z * Z);
  load_text : pystr -> pystr -> Z -> pystr -> Z * Z -> option exn;
  (* concatenate_videoclips(clips, method="compose") *)
  concatenate : list composite_clip -> option exn;
  open_audio : pystr -> option exn;         (* AudioFileClip(original_audio) *)
  (* final_video_clip.with_audio(audio).write_videofile(final_video, fps=fps) *)
  write_videofile : list composite_clip -> pystr -> pystr -> Z -> option exn;
  close : option exn           (* final_video_clip.close(); audio.close() *)
}.

Section GenerateVideo.

Variable E : env.
Variables (output_dir final_video original_audio bg_path font_path : pystr).
Variables (fade_duration min_duration_for_fade : float).
Variables (font_size : Z) (text_color : pystr) (fps : Z).

(** [min(fade_duration, duration / 3) if duration > min_duration_for_fade
    else 0] *)
Definition current_fade_duration (duration : float) : pynum :=
  if fltb min_duration_for_fade duration
  then PFloat (fmin fade_duration (fdiv duration f3))
  else PInt 0.

(** [if current_fade_duration > 0: txt_clip = txt_clip.with_effects(...)] *)
Definition fade_effects (fade : pynum) : list effect :=
  if gt0 fade then [FadeIn fade; FadeOut fade] else [].

(** The body of the loop for one [item]: [Ok None] is [continue] (the
    record is skipped), [Ok (Some c)] is [clips.append(c)], and an
    exception of the body is logged and raised again. *)
Definition process_item (item : json) : result (option composite_clip) :=
  text <- Py.get item "text" (JString []) ;;
  caption_text <- Py.strip text ;;
  ms <- Py.get item "duration_ms" (JInt 0) ;;
  duration <- Py.truediv_float ms f1000 ;;
  match caption_text with
  | [] => Ok None
  | _ :: _ =>
      if fleb duration f0 then Ok None
      else
        size <- load_image E bg_path duration ;;
        let bg_clip := ImageClip bg_path duration size in
        let fade := current_fade_duration duration in
        match load_text E caption_text font_path font_size text_color size with
        | Some e => Raise e
        | None =>
            let txt_clip :=
              TextClip caption_text font_path font_size text_color size
                       duration (lit "center") (fade_effects fade) in
            Ok (Some (CompositeVideoClip bg_clip txt_clip duration))
        end
  end.

(** The loop [for i, item in enumerate(data, start=1)], from the state
    [(clips, skipped_clips)]. *)
Fixpoint build_clips (items : list json) (clips : list composite_clip)
         (skipped_clips : nat) : result (list composite_clip * nat) :=
  match items with
  | [] => Ok (clips, skipped_clips)
  | item :: rest =>
      r <- process_item item ;;
      match r with
      | None => build_clips rest clips (S skipped_clips)
      | Some c => build_clips rest (clips ++ [c]) skipped_clips
      end
  end.

Definition not_found (what : string) (path : pystr) : exn :=
  Exn FileNotFoundError (lit what ++ lit " not found: " ++ path).

Definition no_transcription_data : exn :=
  Exn ValueError (lit "No transcription data found in file").

Definition no_valid_clips (skipped_clips : nat) : exn :=
  Exn ValueError
    (lit "No valid clips generated. Skipped " ++ of_nat skipped_clips
         ++ lit " clips.").

Definition transcriptions_path : pystr :=
  path_join output_dir (lit "transcriptions.json").

(** The clips of a run, up to the check that one survived. *)
Definition collect_clips : result (list composite_clip) :=
  raise_if (negb (path_exists E transcriptions_path))
           (not_found "Transcriptions file" transcriptions_path) ;;;
  raise_if (negb (path_exists E bg_path))
           (not_found "Background image" bg_path) ;;;
  raise_if (negb (path_exists E font_path))
           (not_found "Font file" font_path) ;;;
  raise_if (negb (path_exists E original_audio))
           (not_found "Audio file" original_audio) ;;;
  raise_if (fltb fade_duration f0)
           (Exn ValueError (lit "fade_duration must be non-negative")) ;;;
  raise_if (font_size <=? 0)
           (Exn ValueError (lit "font_size must be positive")) ;;;
  raise_if (fps <=? 0)
           (Exn ValueError (lit "fps must be positive")) ;;;
  data <- json_load E transcriptions_path ;;
  raise_if (negb (Py.truthy data)) no_transcription_data ;;;
  Py.len data ;;;                (* the log line: "Processing {len(data)}" *)
  items <- Py.iter data ;;
  r <- build_clips items [] 0 ;;
  let '(clips, skipped_clips) := r in
  raise_if (match clips with [] => true | _ => false end)
           (no_valid_clips skipped_clips) ;;;
  Ok clips.

(** The whole function: its result and what it did to [final_video].  A
    [write_videofile] that raises may leave the file behind, and the clips
    are closed after the file is written. *)
Definition generate_video : result pystr * list event :=
  match collect_clips with
  | Raise e => (Raise e, [])
  | Ok clips =>
      match concatenate E clips with
      | Some e => (Raise e, [])
      | None =>
          match open_audio E original_audio with
          | Some e => (Raise e, [])
          | None =>
              match write_videofile E clips original_audio final_video fps with
              | Some e => (Raise e, [WriteFailed final_video])
              | None =>
                  let trace := [WriteVideo final_video (List.length clips)] in
                  match close E with
                  | Some e => (Raise e, trace)
                  | None => (Ok final_video, trace)
                  end
              end
          end
      end
  end.

End GenerateVideo.

(** The fade a clip of [duration] seconds is to get: [min(fade_duration,
    duration / 3)] when [duration > min_duration_for_fade], and [0]
    otherwise. *)
Definition fade_for (fade_duration min_duration_for_fade duration : float)
  : pynum :=
  if fltb min_duration_for_fade duration
  then PFloat (fmin fade_duration (fdiv duration f3))
  else PInt 0.

(** [gave fd md item c]: the record [item] has the non-blank text and the
    duration of the clip [c], and [c] fades as [fade_for] says: by that
    duration in and out when it is positive, and not at all otherwise. *)
Definition gave (fade_duration min_duration_for_fade : float)
           (item : json) (c : composite_clip) : Prop :=
  exists text ms,
    Py.get item "text" (JString []) = Ok (JString text) /\
    strip text = txt_text (comp_txt c) /\
    strip text <> [] /\
    Py.get item "duration_ms" (JInt 0) = Ok ms /\
    Py.truediv_float ms f1000 = Ok (comp_duration c) /\
    fleb (comp_duration c) f0 = false /\
    txt_duration (comp_txt c) = comp_duration c /\
    let fade :=
      fade_for fade_duration min_duration_for_fade (comp_duration c) in
    txt_effects (comp_txt c)
    = (if gt0 fade then [FadeIn fade; FadeOut fade] else []) /\
    (eq0 fade = true -> txt_effects (comp_txt c) = []).

End Video.

(* ================================================================= *)
(** ** [transcribe_chunks] *)

Module Transcribe.

(** A [requests.Response]: what [raise_for_status()] and [json()] do. *)
Record response := Response {
  raise_for_status : option exn;
  response_json : result json
}.

(** What the file system, the transcription service and [pydub] answer. *)
Record env := Env {
  path_exists : pystr -> bool;                    (* os.path.exists *)
  listdir : pystr -> result (list pystr);         (* os.listdir *)
  (* open(path, "rb") + requests.post(api_url, files=..., timeout=...) *)
  post : pystr -> pystr -> Z -> result response;
  (* AudioSegment.from_file(path).duration_seconds *)
  duration_seconds : pystr -> result float;
  (* open(output_json, "w") + json.dump *)
  write_json : pystr -> json -> option exn
}.

(** [sorted] on strings, as a stable insertion sort. *)
Fixpoint insert (x : pystr) (l : list pystr) : list pystr :=
  match l with
  | [] => [x]
  | y :: l' => if PyStr.ltb y x then y :: insert x l' else x :: l
  end.

Fixpoint sorted (l : list pystr) : list pystr :=
  match l with
  | [] => []
  | x :: l' => insert x (sorted l')
  end.

(** [sorted([f for f in os.listdir(chunks_dir) if f.endswith(".wav")])] *)
Definition wav_files (names : list pystr) : list pystr :=
  sorted (filter (fun f => endswith f (lit ".wav")) names).

(** [text[:50]] and [len(text)] in the log line: they need a sequence. *)
Definition log_transcribed (text : json) : result unit :=
  match text with
  | JString _ | JArray _ => Ok tt
  | JObject _ => Raise (Exn TypeError (lit "unhashable type: 'slice'"))
  | _ => Raise (Exn TypeError
                  (lit "'" ++ Py.type_name text
                       ++ lit "' object is not subscriptable"))
  end.

Section TranscribeChunks.

Variable E : env.
Variables (api_url chunks_dir output_json : pystr) (timeout : Z).

(** [AudioSegment.from_file(path).duration_seconds * 1000] *)
Definition duration_ms (path : pystr) : result float :=
  d <- duration_seconds E path ;;
  Ok (SFmul prec emax d f1000).

Definition record (path : pystr) (text : json) (duration : float) : json :=
  JObject [(lit "file", JString path); (lit "text", text);
           (lit "duration_ms", JFloat duration)].

Definition error_record (path : pystr) (duration : float) (error : pystr)
  : json :=
  JObject [(lit "file", JString path); (lit "text", JString []);
           (lit "duration_ms", JFloat duration);
           (lit "error", JString error)].

(** The body of [try] for one file. *)
Definition request (path : pystr) : result json :=
  response <- post E api_url path timeout ;;
  match raise_for_status response with
  | Some e => Raise e
  | None =>
      body <- response_json response ;;
      text <- Py.get body "text" (JString []) ;;
      log_transcribed text ;;;
      duration <- duration_ms path ;;
      Ok (record path text duration)
  end.

(** [try] with its three handlers: the record appended for the file, or
    the exception that leaves the loop. *)
Definition transcribe_file (path : pystr) : result json :=
  match request path with
  | Ok r => Ok r
  | Raise e =>
      if is_Timeout e then
        duration <- duration_ms path ;;
        Ok (error_record path duration (lit "timeout"))
      else if is_RequestException e then
        duration <- duration_ms path ;;
        Ok (error_record path duration (exn_str e))
      else Raise e
  end.

(** The loop over [wav_files], from the state [data]; the trace holds the
    requests sent so far. *)
Fixpoint transcribe_loop (files : list pystr) (data : list json)
         (trace : list event) : result (list json) * list event :=
  match files with
  | [] => (Ok data, trace)
  | file :: rest =>
      let path := path_join chunks_dir file in
      let trace' := trace ++ [Post api_url path] in
      match transcribe_file path with
      | Ok r => transcribe_loop rest (data ++ [r]) trace'
      | Raise e => (Raise e, trace')
      end
  end.

Definition chunks_dir_not_found : exn :=
  Exn FileNotFoundError (lit "Chunks directory not found: " ++ chunks_dir).

Definition transcribe_chunks : result (list json) * list event :=
  if negb (path_exists E chunks_dir) then (Raise chunks_dir_not_found, [])
  else
    match listdir E chunks_dir with
    | Raise e => (Raise e, [])
    | Ok names =>
        match wav_files names with
        | [] => (Ok [], [])
        | files =>
            match transcribe_loop files [] [] with
            | (Raise e, trace) => (Raise e, trace)
            | (Ok data, trace) =>
                match write_json E output_json (JArray data) with
                | Some e => (Raise e, trace ++ [WriteFailed output_json])
                | None =>
                    (Ok data, trace ++ [WriteJson output_json (JArray data)])
                end
            end
        end
    end.

End TranscribeChunks.

(** [recorded E url dir timeout files recs]: each file was processed without
    leaving the loop, and gave the record at its position. *)
Definition recorded (E : env) (api_url chunks_dir : pystr) (timeout : Z)
           (files : list pystr) (recs : list json) : Prop :=
  Forall2 (fun file r =>
             transcribe_file E api_url timeout (path_join chunks_dir file)
             = Ok r) files recs.

(** [network_only E url timeout path]: whatever fails in the request for
    [path] is a failure of [requests] (a timeout or another request error),
    and the segment can then be measured. *)
Definition network_only (E : env) (api_url : pystr) (timeout : Z)
           (path : pystr) : Prop :=
  forall e, request E api_url timeout path = Raise e ->
            is_RequestException e = true /\
            exists d, duration_seconds E path = Ok d.

(** The requests for [files], in their order. *)
Definition posts (api_url chunks_dir : pystr) (files : list pystr)
  : list event :=
  map (fun file => Post api_url (path_join chunks_dir file)) files.

(** The files of the requests of a trace, in their order. *)
Definition posted (trace : list event) : list pystr :=
  flat_map (fun ev => match ev with Post _ path => [path] | _ => [] end) trace.

(** The manifests a trace wrote, in their order. *)
Definition manifests (trace : list event) : list (pystr * json) :=
  flat_map (fun ev => match ev with
                      | WriteJson path data => [(path, data)]
                      | _ => []
                      end) trace.

End Transcribe.

(* ================================================================= *)
(** ** [split_audio] *)

Module Split.

(** A [pydub.AudioSegment]: [len(audio)] in milliseconds and its loudness. *)
Record audio := Audio {
  audio_len : Z;
  dBFS : float
}.

(** What the file system and [pydub] answer. *)
Record env := Env {
  path_exists : pystr -> bool;                   (* os.path.exists *)
  makedirs : pystr -> option exn;                (* os.makedirs(.., exist_ok=True) *)
  from_file : pystr -> pystr -> result audio;    (* AudioSegment.from_file *)
  (* silence.split_on_silence(audio, min_silence_len, silence_thresh, keep_silence) *)
  split_on_silence : audio -> Z -> float -> Z -> result (list audio);
  export : audio -> pystr -> option exn;         (* chunk.export(path, format="wav") *)
  write_json : pystr -> json -> option exn       (* open(path, "w") + json.dump *)
}.

(** [f"chunk_{i}.wav"] *)
Definition chunk_name (i : nat) : pystr :=
  lit "chunk_" ++ of_nat i ++ lit ".wav".

Section SplitAudio.

Variable E : env.
Variables (audio_path output_dir : pystr).
Variables (min_silence_len silence_thresh_offset keep_silence : Z).
Variable audio_format : pystr.

Definition segment_record (out_path : pystr) (chunk : audio) : json :=
  JObject [(lit "file", JString out_path);
           (lit "duration_ms", JInt (audio_len chunk))].

(** [audio.dBFS - silence_thresh_offset] *)
Definition silence_thresh (a : audio) : result float :=
  match float_of_int silence_thresh_offset with
  | Some off => Ok (SFsub prec emax (dBFS a) off)
  | None => Raise Py.int_too_large
  end.

(** The loop [for i, chunk in enumerate(chunks)], from index [i] and the
    state [metadata]. *)
Fixpoint export_loop (chunks : list audio) (i : nat) (metadata : list json)
         (trace : list event) : result (list json) * list event :=
  match chunks with
  | [] => (Ok metadata, trace)
  | chunk :: rest =>
      let out_path := path_join output_dir (chunk_name i) in
      match export E chunk out_path with
      | Some e => (Raise e, trace ++ [WriteFailed out_path])
      | None =>
          export_loop rest (S i)
                      (metadata ++ [segment_record out_path chunk])
                      (trace ++ [ExportWav out_path (audio_len chunk)])
      end
  end.

Definition audio_not_found : exn :=
  Exn FileNotFoundError (lit "Audio file not found: " ++ audio_path).

Definition invalid_silence_parameters : exn :=
  Exn ValueError (lit "Silence parameters must be positive values").

Definition chunks_json_path : pystr :=
  path_join output_dir (lit "chunks.json").

(** Loading and splitting, after the directory was made. *)
Definition detect : result (list audio) :=
  a <- from_file E audio_path audio_format ;;
  thresh <- silence_thresh a ;;
  split_on_silence E a min_silence_len thresh keep_silence.

Definition split_audio : result (list json) * list event :=
  if negb (path_exists E audio_path) then (Raise audio_not_found, [])
  else if (min_silence_len <=? 0) || (silence_thresh_offset <=? 0)
          || (keep_silence <? 0)
  then (Raise invalid_silence_parameters, [])
  else
    match makedirs E output_dir with
    | Some e => (Raise e, [])
    | None =>
        let trace := [MakeDirs output_dir] in
        match detect with
        | Raise e => (Raise e, trace)
        | Ok [] => (Ok [], trace)
        | Ok chunks =>
            match export_loop chunks 0 [] trace with
            | (Raise e, trace') => (Raise e, trace')
            | (Ok metadata, trace') =>
                match write_json E chunks_json_path (JArray metadata) with
                | Some e => (Raise e, trace' ++ [WriteFailed chunks_json_path])
                | None =>
                    (Ok metadata,
                     trace' ++ [WriteJson chunks_json_path (JArray metadata)])
                end
            end
        end
    end.

End SplitAudio.

(** The chunks with their indices, from index [i]. *)
Definition indexed (i : nat) (chunks : list audio) : list (nat * audio) :=
  combine (seq i (List.length chunks)) chunks.

(** The SegmentRecords of [chunks], in detection order, from index [i]. *)
Definition segment_records (output_dir : pystr) (i : nat)
           (chunks : list audio) : list json :=
  map (fun ic => JObject [(lit "file",
                           JString (path_join output_dir (chunk_name (fst ic))));
                          (lit "duration_ms", JInt (audio_len (snd ic)))])
      (indexed i chunks).

(** [local output_dir ev]: the effect [ev] is no request, and, when it
    writes a manifest, writes [chunks.json] of [output_dir]. *)
Definition local (output_dir : pystr) (ev : event) : Prop :=
  match ev with
  | Post _ _ => False
  | WriteJson path _ => path = path_join output_dir (lit "chunks.json")
  | _ => True
  end.

(** [inside output_dir ev]: a file that the effect [ev] writes, or fails
    to write, has a path that starts with [output_dir]. *)
Definition inside (output_dir : pystr) (ev : event) : Prop :=
  match ev with
  | ExportWav path _ | WriteJson path _ | WriteVideo path _
  | WriteFailed path =>
      startswith path output_dir = true
  | _ => True
  end.

(** The exports of [chunks], in detection order, from index [i]. *)
Definition exports (output_dir : pystr) (i : nat) (chunks : list audio)
  : list event :=
  map (fun ic => ExportWav (path_join output_dir (chunk_name (fst ic)))
                           (audio_len (snd ic)))
      (indexed i chunks).

End Split.

(* ================================================================= *)
(** ** [process_full_pipeline] *)

Module Pipeline.

(** The answers of the outside world to the three stages. *)
Record env := Env {
  split_env : Split.env;
  transcribe_env : Transcribe.env;
  video_env : Video.env
}.

Definition dict := list (pystr * json).

(** How a run ends: what the caller gets, the [results] dict as the function
    left it, and the side effects of the stages that ran. *)
Record run := Run {
  outcome : result dict;
  results : dict;
  trace : list event
}.

(** [len(l)] as a JSON integer. *)
Definition len (l : list json) : json := JInt (Z.of_nat (List.length l)).

(** [if api_url:] for an [Optional[str]]. *)
Definition provided (api_url : option pystr) : option pystr :=
  match api_url with
  | Some (c :: u) => Some (c :: u)
  | _ => None
  end.

Section ProcessFullPipeline.

Variable E : env.
Variables (audio_path output_video output_dir : pystr).
Variable api_url : option pystr.
Variables (bg_path font_path : pystr).

(** [except Exception as e:] *)
Definition failed (results : dict) (e : exn) (trace : list event) : run :=
  let results := Py.dict_set results (lit "status") (JString (lit "failed")) in
  let results := Py.dict_set results (lit "error") (JString (exn_str e)) in
  Run (Raise e) results trace.

(** Step 1, with the defaults of [split_audio]. *)
Definition step_split : result (list json) * list event :=
  Split.split_audio (split_env E) audio_path output_dir 100 16 25 (lit "mp3").

(** Step 2, with the default timeout of [transcribe_chunks]. *)
Definition step_transcribe (url : pystr) : result (list json) * list event :=
  Transcribe.transcribe_chunks (transcribe_env E) url output_dir
    (path_join output_dir (lit "transcriptions.json")) 60.

(** Step 3, with the defaults of [generate_video]. *)
Definition step_video : result pystr * list event :=
  Video.generate_video (video_env E) output_dir output_video audio_path
    bg_path font_path f0_8 f1 60 (lit "white") 24.

Definition process_full_pipeline : run :=
  let results := [(lit "status", JString (lit "started"));
                  (lit "audio_path", JString audio_path)] in
  match step_split with
  | (Raise e, t1) => failed results e t1
  | (Ok chunks, t1) =>
      let results := Py.dict_set results (lit "chunks_count") (len chunks) in
      let results := Py.dict_set results (lit "chunks_dir") (JString output_dir) in
      let step2 :=
        match provided api_url with
        | Some url =>
            match step_transcribe url with
            | (Raise e, t2) => (Raise e, t2)
            | (Ok transcriptions, t2) => (Ok (len transcriptions), t2)
            end
        | None => (Ok (JInt 0), [])
        end in
      match step2 with
      | (Raise e, t2) => failed results e (t1 ++ t2)
      | (Ok count, t2) =>
          let results := Py.dict_set results (lit "transcriptions_count") count in
          match step_video with
          | (Raise e, t3) => failed results e (t1 ++ t2 ++ t3)
          | (Ok video_path, t3) =>
              let results :=
                Py.dict_set results (lit "video_path") (JString video_path) in
              let results :=
                Py.dict_set results (lit "status") (JString (lit "success")) in
              Run (Ok results) results (t1 ++ t2 ++ t3)
          end
      end
  end.

End ProcessFullPipeline.

End Pipeline.

(* ================================================================= *)
(** ** Sample runs *)

Module Samples.

(** A transcript record as [transcribe_chunks] writes it. *)
Definition transcript (file text : string) (duration_ms : Z) : json :=
  JObject [(lit "file", JString (lit file)); (lit "text", JString (lit text));
           (lit "duration_ms", JInt duration_ms)].

(** A manifest of four records: two captions, a blank one and one of no
    duration. *)
Definition manifest : json :=
  JArray [transcript "up/chunk_0.wav" "alpha" 1500;
          transcript "up/chunk_1.wav" "beta" 900;
          transcript "up/chunk_2.wav" "   " 1200;
          transcript "up/chunk_3.wav" "gamma" 0].

(** A manifest whose records are all skipped. *)
Definition silent_manifest : json :=
  JArray [transcript "up/chunk_0.wav" "" 1500;
          transcript "up/chunk_1.wav" "  " 900;
          transcript "up/chunk_2.wav" "delta" (-5);
          JObject [(lit "file", JString (lit "up/chunk_3.wav"))]].

(** A world where every file is there and [moviepy] never fails. *)
Definition video_env (data : json) : Video.env :=
  Video.Env (fun _ => true) (fun _ => Ok data)
            (fun _ _ => Ok (1920, 1080)) (fun _ _ _ _ _ => None)
            (fun _ => None) (fun _ => None) (fun _ _ _ _ => None) None.

(** The clips of [generate_video] with its defaults in that world. *)
Definition clips_of (data : json) : result (list Video.composite_clip) :=
  Video.collect_clips (video_env data) (lit "up") (lit "quran.mp3")
    (lit "bg.png") (lit "font.otf") f0_8 f1 60 (lit "white") 24.

(** The loop body of [generate_video] with its defaults in that world. *)
Definition clip_of (item : json) : result (option Video.composite_clip) :=
  Video.process_item (video_env manifest) (lit "bg.png") (lit "font.otf")
    f0_8 f1 60 (lit "white") item.

(** A successful answer of the service, with the text [text]. *)
Definition answer (text : string) : result Transcribe.response :=
  Ok (Transcribe.Response None (Ok (JObject [(lit "text", JString (lit text))]))).

(** A world for [transcribe_chunks]: the directory lists [names], the
    service answers [service path], every segment lasts 1.5 s and the
    manifest can be written. *)
Definition transcribe_env (names : list pystr)
           (service : pystr -> result Transcribe.response) : Transcribe.env :=
  Transcribe.Env (fun _ => true) (fun _ => Ok names)
                 (fun _ path _ => service path)
                 (fun _ => Ok (S754_finite false 6755399441055744 (-52)))
                 (fun _ _ => None).

(** A directory as [split_audio] leaves it after three segments. *)
Definition three_chunks : list pystr :=
  [lit "chunk_1.wav"; lit "chunks.json"; lit "chunk_0.wav"; lit "chunk_2.wav"].

(** The service times out on [chunk_1.wav]. *)
Definition timeout_on_1 (path : pystr) : result Transcribe.response :=
  if PyStr.eqb path (lit "up/chunk_1.wav")
  then Raise (Exn Timeout (lit "Read timed out."))
  else answer "alpha".

(** The service answers [chunk_1.wav] with a JSON list: [.get] fails. *)
Definition list_on_1 (path : pystr) : result Transcribe.response :=
  if PyStr.eqb path (lit "up/chunk_1.wav")
  then Ok (Transcribe.Response None (Ok (JArray [])))
  else answer "alpha".

(** [transcribe_chunks] on the directory "up", into its manifest. *)
Definition transcribe (names : list pystr)
           (service : pystr -> result Transcribe.response)
  : result (list json) * list event :=
  Transcribe.transcribe_chunks (transcribe_env names service)
    (lit "http://stt/transcribe") (lit "up") (lit "up/transcriptions.json") 60.

(** A world for [split_audio]: the audio is there and [pydub] finds
    [chunks] in it; every export and write succeeds. *)
Definition split_env (chunks : list Split.audio) : Split.env :=
  Split.Env (fun _ => true) (fun _ => None)
            (fun _ _ => Ok (Split.Audio 10000 (S754_finite true 5629499534213120 (-48))))
            (fun _ _ _ _ => Ok chunks)
            (fun _ _ => None) (fun _ _ => None).

(** [split_audio] with its defaults, into the directory "up". *)
Definition split (chunks : list Split.audio)
  : result (list json) * list event :=
  Split.split_audio (split_env chunks) (lit "quran.mp3") (lit "up")
                    100 16 25 (lit "mp3").

(** Two segments, of 1500 ms and of 900 ms. *)
Definition two_segments : list Split.audio :=
  [Split.Audio 1500 (S754_finite true 5629499534213120 (-48));
   Split.Audio 900 (S754_finite true 5629499534213120 (-48))].

(** The whole pipeline on "quran.mp3", in a world where two segments are
    found, the directory lists three chunk files, the service times out on
    one of them, and the manifest read back is [data]. *)
Definition pipeline (api_url : option pystr) (data : json) : Pipeline.run :=
  Pipeline.process_full_pipeline
    (Pipeline.Env (split_env two_segments)
                  (transcribe_env three_chunks timeout_on_1)
                  (video_env data))
    (lit "quran.mp3") (lit "out.mp4") (lit "up") api_url
    (lit "bg.png") (lit "font.otf").

(** The world of [video_env], but for the file [missing]. *)
Definition video_env_without (missing : pystr) (data : json) : Video.env :=
  Video.Env (fun p => negb (PyStr.eqb p missing)) (fun _ => Ok data)
            (fun _ _ => Ok (1920, 1080)) (fun _ _ _ _ _ => None)
            (fun _ => None) (fun _ => None) (fun _ _ _ _ => None) None.

(** A manifest whose second record has a number for text. *)
Definition broken_manifest : json :=
  JArray [transcript "up/chunk_0.wav" "alpha" 1500;
          JObject [(lit "file", JString (lit "up/chunk_1.wav"));
                   (lit "text", JInt 5); (lit "duration_ms", JInt 900)];
          transcript "up/chunk_2.wav" "gamma" 1200].

(** [generate_video] with its defaults, but for [fps]. *)
Definition video (E : Video.env) (fps : Z) : result pystr * list event :=
  Video.generate_video E (lit "up") (lit "out.mp4") (lit "quran.mp3")
    (lit "bg.png") (lit "font.otf") f0_8 f1 60 (lit "white") fps.

(** A world for [transcribe_chunks] with its own answers of [pydub] and of
    the write of the manifest. *)
Definition transcribe_world (names : list pystr)
           (service : pystr -> result Transcribe.response)
           (measure : pystr -> result float)
           (write : pystr -> json -> option exn) : Transcribe.env :=
  Transcribe.Env (fun _ => true) (fun _ => Ok names)
                 (fun _ path _ => service path) measure write.

(** [pydub] cannot read [chunk_1.wav]. *)
Definition unreadable_1 (path : pystr) : result float :=
  if PyStr.eqb path (lit "up/chunk_1.wav")
  then Raise (Exn RuntimeError (lit "Decoding failed"))
  else Ok (S754_finite false 6755399441055744 (-52)).

(** A world for [split_audio] where the audio file may be missing and the
    export of [chunk_1.wav] may fail. *)
Definition split_world (audio_exists export_1_fails : bool)
           (chunks : list Split.audio) : Split.env :=
  Split.Env (fun _ => audio_exists) (fun _ => None)
            (fun _ _ => Ok (Split.Audio 10000
                              (S754_finite true 5629499534213120 (-48))))
            (fun _ _ _ _ => Ok chunks)
            (fun _ path =>
               if export_1_fails && PyStr.eqb path (lit "up/chunk_1.wav")
               then Some (Exn OSError (lit "No space left on device"))
               else None)
            (fun _ _ => None).

(** [split_audio] with its defaults where the export of [chunk_1.wav]
    fails. *)
Definition split_failing (chunks : list Split.audio)
  : result (list json) * list event :=
  Split.split_audio (split_world true true chunks) (lit "quran.mp3")
                    (lit "up") 100 16 25 (lit "mp3").

End Samples.

(* ================================================================= *)
(** * Properties *)

(** ** Floats: signs through rounding and division *)

Module FloatFacts.

Lemma iter_pos_invariant {A} (P : A -> Prop) (f : A -> A) :
  (forall x, P x -> P (f x)) ->
  forall n x, P x -> P (iter_pos f n x).
Proof.
  intros Hf n. induction n as [n IH | n IH |]; intros x Hx; simpl; auto.
Qed.

Lemma shr_1_nonneg mrs : 0 <= shr_m mrs -> 0 <= shr_m (shr_1 mrs).
Proof.
  destruct mrs as [m r s]. simpl.
  destruct m as [| [p | p |] | p]; simpl; intros H; lia.
Qed.

Lemma shr_nonneg mrs e n : 0 <= shr_m mrs -> 0 <= shr_m (fst (shr mrs e n)).
Proof.
  intros H. destruct n; simpl; auto.
  apply (iter_pos_invariant (fun x => 0 <= shr_m x)); auto using shr_1_nonneg.
Qed.

Lemma shr_fexp_nonneg m e l :
  0 <= m -> 0 <= shr_m (fst (shr_fexp prec emax m e l)).
Proof.
  intros H. unfold shr_fexp. apply shr_nonneg.
  destruct l as [| []]; simpl; exact H.
Qed.

Lemma round_nearest_even_nonneg m l : 0 <= m -> 0 <= round_nearest_even m l.
Proof.
  intros H. destruct l as [| []]; simpl; try lia.
  destruct (Z.even m); lia.
Qed.

Lemma binary_round_aux_signed sx mx ex lx :
  0 <= mx -> signed sx (binary_round_aux prec emax sx mx ex lx).
Proof.
  intros H. unfold binary_round_aux.
  pose proof (shr_fexp_nonneg mx ex lx H) as H1.
  destruct (shr_fexp prec emax mx ex lx) as [mrs' e']. simpl in H1.
  pose proof (shr_fexp_nonneg
                (round_nearest_even (shr_m mrs') (loc_of_shr_record mrs'))
                e' loc_Exact (round_nearest_even_nonneg _ _ H1)) as H2.
  destruct (shr_fexp prec emax _ e' loc_Exact) as [mrs'' e'']. simpl in H2.
  destruct (shr_m mrs'') as [| m | m]; unfold signed; try reflexivity; try lia.
  destruct (e'' <=? emax - prec); reflexivity.
Qed.

Lemma binary_normalize_signed z :
  z <> 0 -> signed (z <? 0) (binary_normalize prec emax z 0 false).
Proof.
  intros Hz. destruct z as [| m | m]; [congruence | |];
    simpl; unfold binary_round;
    destruct (shl_align _ _ _) as [mz ez];
    apply binary_round_aux_signed; lia.
Qed.

(** The quotient of two numbers that are not NaN carries the product of
    their signs, unless it is the NaN of 0/0 or inf/inf. *)
Lemma fdiv_finite_signed sx mx ex sy my ey :
  signed (xorb sx sy)
         (fdiv (S754_finite sx mx ex) (S754_finite sy my ey)).
Proof.
  unfold fdiv, SFdiv.
  destruct (SFdiv_core_binary prec emax (Zpos mx) ex (Zpos my) ey)
    as [[mz ez] lz] eqn:Hc.
  apply binary_round_aux_signed.
  unfold SFdiv_core_binary in Hc.
  set (s := ex - ey - _) in Hc.
  set (m' := match s with Z0 => _ | Zpos _ => _ | Zneg _ => _ end) in Hc.
  assert (Hm : 0 <= m').
  { subst m'. destruct s; try lia. apply Z.shiftl_nonneg. lia. }
  pose proof (Z.div_eucl_eq m' (Zpos my) ltac:(lia)) as Heq.
  pose proof (Z.mod_pos_bound m' (Zpos my) ltac:(lia)) as Hr.
  unfold Z.modulo in Hr.
  destruct (Z.div_eucl m' (Zpos my)) as [q r].
  injection Hc as <- _ _. nia.
Qed.

(** The constants are the floats Python reads the literals as: the integers
    converted, and the nearest floats to 8/10, 5/10 and 3/10. *)
Lemma literals :
  float_of_int 1 = Some f1 /\ float_of_int 3 = Some f3 /\
  float_of_int 1000 = Some f1000 /\
  fdiv (S754_finite false 8 0) (S754_finite false 10 0) = f0_8 /\
  fdiv (S754_finite false 5 0) (S754_finite false 10 0) = f0_5 /\
  fdiv (S754_finite false 3 0) (S754_finite false 10 0) = f0_3 /\
  forallb (valid_binary prec emax) [f0; f1; f3; f1000; f0_8; f0_5; f0_3] = true.
Proof. repeat split. Qed.

(** [x <= 0.0] for a float: what the comparison accepts. *)
Lemma fleb_f0 f :
  fleb f f0 = true <->
  match f with
  | S754_zero _ => True
  | S754_infinity s | S754_finite s _ _ => s = true
  | S754_nan => False
  end.
Proof.
  destruct f as [s | s | | s m e]; simpl; try destruct s;
    unfold fleb, SFleb; simpl; intuition congruence.
Qed.

(** [x == 0] excludes [x > 0]. *)
Lemma feqb_f0_not_gt f : feqb f f0 = true -> fltb f0 f = false.
Proof.
  destruct f as [s | s | | s m e]; try destruct s;
    unfold feqb, fltb, SFeqb, SFltb; simpl; congruence.
Qed.

(** Dividing by [1000.0] keeps a float that is [<= 0] at or below zero. *)
Lemma fdiv_f1000_le0 f :
  fleb f f0 = true -> fleb (fdiv f f1000) f0 = true.
Proof.
  intros H. apply fleb_f0 in H. apply fleb_f0.
  destruct f as [s | s | | s m e].
  - exact I.
  - subst s. reflexivity.
  - contradiction.
  - subst s.
    pose proof (fdiv_finite_signed true m e false
                  8796093022208000 (-43)) as Hs.
    change (S754_finite false 8796093022208000 (-43)) with f1000 in Hs.
    destruct (fdiv (S754_finite true m e) f1000); simpl in *; auto.
Qed.

(** An [int] that is [<= 0] converts to a float that is [<= 0]. *)
Lemma float_of_int_le0 z x :
  z <= 0 -> float_of_int z = Some x -> fleb x f0 = true.
Proof.
  intros Hz Hx. apply fleb_f0. unfold float_of_int in Hx.
  destruct (Z.eq_dec z 0) as [-> | Hne].
  - simpl in Hx. injection Hx as <-. exact I.
  - pose proof (binary_normalize_signed z Hne) as Hs.
    replace (z <? 0) with true in Hs by (symmetry; apply Z.ltb_lt; lia).
    destruct (binary_normalize prec emax z 0 false); try discriminate;
      injection Hx as <-; simpl in *; auto.
Qed.

End FloatFacts.

(* ================================================================= *)
(** ** Results *)

Lemma bind_Ok {A B} (r : result A) (k : A -> result B) b :
  bind r k = Ok b -> exists a, r = Ok a /\ k a = Ok b.
Proof. destruct r as [a | e]; simpl; [eauto | discriminate]. Qed.

Lemma raise_if_Ok c e u : raise_if c e = Ok u -> c = false.
Proof. destruct c; simpl; [discriminate | reflexivity]. Qed.

(** A timeout of [requests] is a request error. *)
Lemma not_request_not_timeout e :
  is_RequestException e = false -> is_Timeout e = false.
Proof.
  unfold is_RequestException, is_Timeout.
  destruct (exn_cls e); congruence.
Qed.

(* ================================================================= *)
(** ** Strings *)

Module StrFacts.

Lemma lstrip_blank s : Manifest.blank s = true -> lstrip s = [].
Proof.
  induction s as [| c s IH]; simpl; [reflexivity |].
  intros H. apply andb_true_iff in H as [Hc Hs]. rewrite Hc. auto.
Qed.

(** Whitespace-only text strips to the empty string. *)
Lemma strip_blank s : Manifest.blank s = true -> strip s = [].
Proof.
  intros H. unfold strip. rewrite (lstrip_blank s H). reflexivity.
Qed.

Lemma eqb_eq a b : PyStr.eqb a b = true <-> a = b.
Proof.
  revert b. induction a as [| x a IH]; intros [| y b]; simpl;
    try (split; [discriminate | congruence]); [tauto |].
  rewrite andb_true_iff, N.eqb_eq, IH. split.
  - intros [-> ->]. reflexivity.
  - intros [= -> ->]. auto.
Qed.

Lemma eqb_refl a : PyStr.eqb a a = true.
Proof. apply eqb_eq. reflexivity. Qed.

End StrFacts.

(* ================================================================= *)
(** ** [generate_video]: skipping and fading *)

Module VideoFacts.

Import Video Manifest FloatFacts.

(** Splits an equation on a [bind] into its two steps. *)
Ltac bind_inv H :=
  match type of H with
  | bind ?r _ = _ =>
      let a := fresh "a" in
      let Hr := fresh "Hr" in
      destruct r as [a | ?] eqn:Hr; simpl in H; [| discriminate H]
  end.

Lemma fade_zero_no_effect fade :
  eq0 fade = true -> (if gt0 fade then [FadeIn fade; FadeOut fade] else []) = [].
Proof.
  destruct fade as [z | f]; simpl; intros H.
  - apply Z.eqb_eq in H. subst z. reflexivity.
  - rewrite (feqb_f0_not_gt f H). reflexivity.
Qed.

Section Facts.

Variable E : env.
Variables (output_dir final_video original_audio bg_path font_path : pystr).
Variables (fade_duration min_duration_for_fade : float).
Variables (font_size : Z) (text_color : pystr) (fps : Z).

Local Abbreviation process_item :=
  (process_item E bg_path font_path fade_duration min_duration_for_fade
                font_size text_color).
Local Abbreviation build_clips :=
  (build_clips E bg_path font_path fade_duration min_duration_for_fade
               font_size text_color).
Local Abbreviation collect_clips :=
  (collect_clips E output_dir original_audio bg_path font_path fade_duration
                 min_duration_for_fade font_size text_color fps).
Local Abbreviation generate_video :=
  (generate_video E output_dir final_video original_audio bg_path font_path
                  fade_duration min_duration_for_fade font_size text_color fps).

Lemma process_item_gave item c :
  process_item item = Ok (Some c) ->
  gave fade_duration min_duration_for_fade item c.
Proof.
  unfold Video.process_item. intros H.
  bind_inv H. bind_inv H. bind_inv H. bind_inv H.
  destruct a0 as [| ch caption] eqn:Hcap; [discriminate |].
  destruct (fleb a2 f0) eqn:Hle; [discriminate |].
  bind_inv H.
  destruct (load_text E _ _ _ _ _); [discriminate |].
  injection H as <-. simpl.
  destruct a as [| | | | text | |]; simpl in Hr0; try discriminate.
  injection Hr0 as Hs.
  exists text, a1. rewrite Hs. cbn.
  repeat (split; [solve [auto | discriminate] |]).
  unfold fade_effects, current_fade_duration, fade_for.
  apply fade_zero_no_effect.
Qed.

Lemma build_clips_app items : forall clips0 sk0 clips sk,
  build_clips items clips0 sk0 = Ok (clips, sk) ->
  exists new,
    clips = clips0 ++ new /\
    Forall (fun c => exists item,
                In item items /\
                gave fade_duration min_duration_for_fade item c) new /\
    (sk + List.length new = sk0 + List.length items)%nat.
Proof.
  induction items as [| item rest IH]; intros clips0 sk0 clips sk H.
  - injection H as <- <-. exists []. rewrite app_nil_r. simpl.
    repeat split; auto.
  - simpl in H. bind_inv H.
    destruct a as [c |].
    + apply IH in H as (new & -> & Hall & Hlen).
      exists (c :: new). rewrite <- app_assoc. split; [reflexivity |].
      split.
      * constructor.
        -- exists item. split; [left; reflexivity |].
           apply process_item_gave. exact Hr.
        -- eapply Forall_impl; [| exact Hall].
           intros c' (it & Hin & Hg). exists it. split; [right |]; auto.
      * simpl. lia.
    + apply IH in H as (new & -> & Hall & Hlen).
      exists new. split; [reflexivity |]. split.
      * eapply Forall_impl; [| exact Hall].
        intros c' (it & Hin & Hg). exists it. split; [right |]; auto.
      * simpl. lia.
Qed.

(** C1. Every clip of a run of [generate_video] comes from a record of the
    manifest with non-blank text and the clip's duration
    ([duration_ms / 1000.0], above zero), and the fade applied to its text is
    [min(fade_duration, duration / 3)] when [duration >
    min_duration_for_fade] and [0] otherwise; a fade equal to zero applies no
    effect to the clip. *)
Theorem fade_policy clips :
  collect_clips = Ok clips ->
  exists data items,
    json_load E (transcriptions_path output_dir) = Ok data /\
    Py.iter data = Ok items /\
    Forall (fun c => exists item,
                In item items /\
                gave fade_duration min_duration_for_fade item c) clips.
Proof.
  unfold Video.collect_clips. intros H.
  do 7 (apply bind_Ok in H as (? & _ & H)).
  apply bind_Ok in H as (data & Hdata & H).
  do 2 (apply bind_Ok in H as (? & _ & H)).
  apply bind_Ok in H as (items & Hitems & H).
  apply bind_Ok in H as ([cl sk] & Hloop & H).
  apply bind_Ok in H as (? & _ & H).
  injection H as <-.
  exists data, items. repeat split; auto.
  apply build_clips_app in Hloop as (new & -> & Hall & _). exact Hall.
Qed.

(** A record whose fields are well-typed, and whose text is blank or whose
    duration is at most zero, is skipped: the loop body neither raises nor
    builds a clip. *)
Lemma process_item_skips kv text ms :
  match Py.dict_lookup kv (lit "text") with
  | Some v => v
  | None => JString []
  end = JString text ->
  match Py.dict_lookup kv (lit "duration_ms") with
  | Some v => v
  | None => JInt 0
  end = ms ->
  is_number ms = true ->
  blank text = true \/ le0 ms = true ->
  process_item (JObject kv) = Ok None.
Proof.
  intros Ht Hm Hnum Hskip. unfold Video.process_item, Py.get.
  rewrite Ht, Hm. simpl.
  assert (Hdiv : exists x, Py.truediv_float ms f1000 = Ok (fdiv x f1000) /\
                           (le0 ms = true -> fleb x f0 = true)).
  { destruct ms as [| | z | f | | |]; simpl in Hnum; try discriminate.
    - simpl. destruct (float_of_int z) as [x |] eqn:Hz; [| discriminate].
      exists x. split; [reflexivity |]. intros Hle.
      apply (float_of_int_le0 z x); [apply Z.leb_le; exact Hle | exact Hz].
    - exists f. split; [reflexivity |]. auto. }
  destruct Hdiv as (x & -> & Hx). simpl.
  destruct (strip text) as [| ch caption] eqn:Hs; [reflexivity |].
  destruct Hskip as [Hb | Hle].
  - rewrite (StrFacts.strip_blank text Hb) in Hs. discriminate.
  - rewrite (fdiv_f1000_le0 x (Hx Hle)). reflexivity.
Qed.

Lemma build_clips_all_skipped items : forall clips0 sk0,
  Forall (fun item => process_item item = Ok None) items ->
  build_clips items clips0 sk0 = Ok (clips0, (sk0 + List.length items)%nat).
Proof.
  induction items as [| item rest IH]; intros clips0 sk0 Hall; simpl.
  - rewrite Nat.add_0_r. reflexivity.
  - inversion Hall as [| ? ? Hitem Hrest]; subst.
    rewrite Hitem. simpl. rewrite (IH _ _ Hrest). f_equal. f_equal. lia.
Qed.

(** C7. A record whose text is empty or whitespace-only, or whose
    [duration_ms] is at most zero, is skipped: no clip, no exception.  When
    the manifest is a non-empty list whose records are all skipped,
    [generate_video] raises the [ValueError] "No valid clips generated.
    Skipped n clips." and writes nothing; an empty manifest raises another
    [ValueError], "No transcription data found in file". *)
Theorem skipped_records :
  (forall kv text ms,
      field (JObject kv) "text" = Some (JString text) ->
      field (JObject kv) "duration_ms" = Some ms ->
      is_number ms = true ->
      blank text = true \/ le0 ms = true ->
      process_item (JObject kv) = Ok None) /\
  (forall items,
      path_exists E (transcriptions_path output_dir) = true ->
      path_exists E bg_path = true ->
      path_exists E font_path = true ->
      path_exists E original_audio = true ->
      fltb fade_duration f0 = false -> 0 < font_size -> 0 < fps ->
      json_load E (transcriptions_path output_dir) = Ok (JArray items) ->
      (items = [] -> generate_video = (Raise no_transcription_data, [])) /\
      (items <> [] ->
       Forall (fun item => process_item item = Ok None) items ->
       generate_video = (Raise (no_valid_clips (List.length items)), []) /\
       exn_cls (no_valid_clips (List.length items)) = ValueError /\
       no_valid_clips (List.length items) <> no_transcription_data)).
Proof.
  split.
  - intros kv text ms Ht Hm Hnum Hskip. simpl in Ht, Hm.
    apply (process_item_skips kv text ms); auto.
    + rewrite Ht. reflexivity.
    + rewrite Hm. reflexivity.
  - intros items H1 H2 H3 H4 Hfade Hsize Hfps Hload.
    unfold Video.generate_video, Video.collect_clips.
    rewrite H1, H2, H3, H4, Hfade, Hload.
    replace (font_size <=? 0) with false by (symmetry; apply Z.leb_gt; lia).
    replace (fps <=? 0) with false by (symmetry; apply Z.leb_gt; lia).
    simpl. split.
    + intros ->. reflexivity.
    + intros Hne Hall. destruct items as [| item rest]; [congruence |].
      cbn [Py.truthy negb raise_if bind Py.iter].
      rewrite (build_clips_all_skipped (item :: rest) [] 0 Hall).
      cbn [bind raise_if Nat.add]. split; [reflexivity |].
      split; [reflexivity |].
      unfold no_valid_clips, no_transcription_data. intros Heq.
      apply (f_equal exn_str) in Heq. cbn in Heq. discriminate Heq.
Qed.

(** Outside the numbers that convert to a float, the division comes first
    and raises: an integer beyond the range of the floats aborts the run with
    [OverflowError], whatever the text of the record. *)
Remark out_of_range_duration_raises kv z :
  field (JObject kv) "text" = Some (JString []) ->
  field (JObject kv) "duration_ms" = Some (JInt z) ->
  float_of_int z = None ->
  process_item (JObject kv) = Raise Py.int_too_large.
Proof.
  simpl. intros Ht Hm Hz. unfold Video.process_item, Py.get.
  rewrite Ht, Hm. simpl. rewrite Hz. reflexivity.
Qed.

(** C10. A record without the "text" key (its "duration_ms", when present,
    a number), and a record without the "duration_ms" key (its "text", when
    present, a string), are skipped without an exception: the missing text
    counts as the empty string and the missing duration as zero. *)
Theorem missing_key_skipped kv :
  (field (JObject kv) "text" = None ->
   absent_or is_number (field (JObject kv) "duration_ms") = true ->
   Py.get (JObject kv) "text" (JString []) = Ok (JString []) /\
   process_item (JObject kv) = Ok None) /\
  (field (JObject kv) "duration_ms" = None ->
   absent_or is_string (field (JObject kv) "text") = true ->
   Py.get (JObject kv) "duration_ms" (JInt 0) = Ok (JInt 0) /\
   process_item (JObject kv) = Ok None).
Proof.
  simpl. split.
  - intros Ht Hm. rewrite Ht. split; [reflexivity |].
    apply (process_item_skips kv []
             match Py.dict_lookup kv (lit "duration_ms") with
             | Some v => v
             | None => JInt 0
             end); auto.
    + rewrite Ht. reflexivity.
    + destruct (Py.dict_lookup kv (lit "duration_ms")); auto.
  - intros Hm Ht. rewrite Hm. split; [reflexivity |].
    destruct (Py.dict_lookup kv (lit "text")) as [v |] eqn:Hv.
    + destruct v as [| | | | text | |]; simpl in Ht; try discriminate.
      apply (process_item_skips kv text (JInt 0)); auto.
      * rewrite Hv. reflexivity.
      * rewrite Hm. reflexivity.
    + apply (process_item_skips kv [] (JInt 0)); auto.
      * rewrite Hv. reflexivity.
      * rewrite Hm. reflexivity.
Qed.

End Facts.

Lemma fade_policy_witness :
  exists clips,
    Samples.clips_of Samples.manifest = Ok clips /\
    List.length clips = 2%nat /\
    exists data items,
      json_load (Samples.video_env Samples.manifest)
                (transcriptions_path (lit "up")) = Ok data /\
      Py.iter data = Ok items /\
      Forall (fun c => exists item, In item items /\ gave f0_8 f1 item c) clips.
Proof.
  eexists. split; [reflexivity |]. split; [reflexivity |].
  apply (fade_policy (Samples.video_env Samples.manifest) (lit "up")
           (lit "quran.mp3") (lit "bg.png") (lit "font.otf") f0_8 f1 60
           (lit "white") 24).
  reflexivity.
Defined.

Lemma skipped_records_witness :
  Samples.clip_of (Samples.transcript "up/chunk_1.wav" "  " 900) = Ok None /\
  Samples.clip_of (Samples.transcript "up/chunk_2.wav" "delta" (-5)) = Ok None /\
  generate_video (Samples.video_env Samples.silent_manifest) (lit "up")
    (lit "out.mp4") (lit "quran.mp3") (lit "bg.png") (lit "font.otf")
    f0_8 f1 60 (lit "white") 24
  = (Raise (no_valid_clips 4), []).
Proof.
  pose proof (skipped_records (Samples.video_env Samples.manifest) (lit "up")
                (lit "out.mp4") (lit "quran.mp3") (lit "bg.png")
                (lit "font.otf") f0_8 f1 60 (lit "white") 24) as [Hskip _].
  pose proof (skipped_records (Samples.video_env Samples.silent_manifest)
                (lit "up") (lit "out.mp4") (lit "quran.mp3") (lit "bg.png")
                (lit "font.otf") f0_8 f1 60 (lit "white") 24) as [_ Hall].
  split; [| split].
  - apply (Hskip _ (lit "  ") (JInt 900)); [reflexivity .. | left; reflexivity].
  - apply (Hskip _ (lit "delta") (JInt (-5)));
      [reflexivity .. | right; reflexivity].
  - pose proof (Hall (match Samples.silent_manifest with
                      | JArray l => l
                      | _ => []
                      end)
                  eq_refl eq_refl eq_refl eq_refl eq_refl eq_refl eq_refl
                  eq_refl) as [_ Hraise].
    apply Hraise; [discriminate |].
    repeat constructor.
Defined.

Lemma missing_key_skipped_witness :
  Samples.clip_of (JObject [(lit "file", JString (lit "up/chunk_3.wav"));
                            (lit "duration_ms", JInt 1500)]) = Ok None /\
  Samples.clip_of (JObject [(lit "file", JString (lit "up/chunk_3.wav"));
                            (lit "text", JString (lit "epsilon"))]) = Ok None.
Proof.
  split.
  - refine (proj2 (proj1 (missing_key_skipped
                            (Samples.video_env Samples.manifest)
                            (lit "bg.png") (lit "font.otf") f0_8 f1 60
                            (lit "white") _) _ _)); reflexivity.
  - refine (proj2 (proj2 (missing_key_skipped
                            (Samples.video_env Samples.manifest)
                            (lit "bg.png") (lit "font.otf") f0_8 f1 60
                            (lit "white") _) _ _)); reflexivity.
Defined.

(** The duration of a clip made from a record of [n] milliseconds. *)
Lemma millis_duration n ms d :
  millis n ms -> Py.truediv_float ms f1000 = Ok d ->
  exists f, float_of_int n = Some f /\ d = fdiv f f1000.
Proof.
  intros [-> | (f & Hf & ->)]; simpl.
  - destruct (float_of_int n) as [f |]; [| discriminate].
    intros [= <-]. eauto.
  - intros [= <-]. eauto.
Qed.

(** C2, as the code has it.  With [fade_duration = 0.8] and
    [min_duration_for_fade = 1.0], the clip of a record of 1500 ms fades by
    0.5 s (a third of its 1.5 s, below 0.8), and the clips of records of 900
    ms and of 500 ms, which last no more than 1.0 s, do not fade: their fade
    is 0. *)
Theorem fade_examples (E : env) (bg_path font_path : pystr) (font_size : Z)
        (text_color : pystr) (item : json) (c : composite_clip) (ms : json) :
  process_item E bg_path font_path f0_8 f1 font_size text_color item
  = Ok (Some c) ->
  field item "duration_ms" = Some ms ->
  (millis 1500 ms ->
   current_fade_duration f0_8 f1 (comp_duration c) = PFloat f0_5 /\
   txt_effects (comp_txt c) = [FadeIn (PFloat f0_5); FadeOut (PFloat f0_5)]) /\
  (millis 900 ms ->
   current_fade_duration f0_8 f1 (comp_duration c) = PInt 0 /\
   txt_effects (comp_txt c) = []) /\
  (millis 500 ms ->
   current_fade_duration f0_8 f1 (comp_duration c) = PInt 0 /\
   txt_effects (comp_txt c) = []).
Proof.
  intros Hc Hms.
  apply process_item_gave in Hc
    as (text & ms' & _ & _ & _ & Hget & Hdiv & _ & _ & Heff & _).
  assert (ms' = ms) as ->.
  { destruct item; simpl in Hms; try discriminate.
    simpl in Hget. rewrite Hms in Hget. congruence. }
  cbv zeta in Heff. rewrite Heff. clear Heff.
  change (fade_for f0_8 f1 (comp_duration c))
    with (current_fade_duration f0_8 f1 (comp_duration c)).
  split; [| split]; intros Hn;
    destruct (millis_duration _ _ _ Hn Hdiv) as (f & Hf & ->);
    vm_compute in Hf; injection Hf as <-; split; reflexivity.
Qed.

Lemma fade_examples_witness :
  exists c,
    Samples.clip_of (Samples.transcript "up/chunk_0.wav" "alpha" 1500)
    = Ok (Some c) /\
    current_fade_duration f0_8 f1 (comp_duration c) = PFloat f0_5 /\
    txt_effects (comp_txt c) = [FadeIn (PFloat f0_5); FadeOut (PFloat f0_5)].
Proof.
  eexists. split; [reflexivity |].
  refine (proj1 (fade_examples (Samples.video_env Samples.manifest)
                   (lit "bg.png") (lit "font.otf") 60 (lit "white")
                   (Samples.transcript "up/chunk_0.wav" "alpha" 1500)
                   _ (JInt 1500) eq_refl eq_refl) _).
  left. reflexivity.
Defined.

(** C2, as the claim has it, fails: the fade of a record of 1500 ms is 0.5 s
    and not 0.8 s, and the fade of a record of 900 ms is 0 and not 0.3 s. *)
Lemma fade_examples_not_as_claimed :
  (exists c,
      Samples.clip_of (Samples.transcript "up/chunk_0.wav" "alpha" 1500)
      = Ok (Some c) /\
      current_fade_duration f0_8 f1 (comp_duration c) = PFloat f0_5 /\
      feqb f0_5 f0_8 = false) /\
  (exists c,
      Samples.clip_of (Samples.transcript "up/chunk_1.wav" "beta" 900)
      = Ok (Some c) /\
      current_fade_duration f0_8 f1 (comp_duration c) = PInt 0 /\
      txt_effects (comp_txt c) = [] /\
      eq0 (PFloat f0_3) = false).
Proof.
  split; eexists; repeat split; reflexivity.
Qed.

End VideoFacts.

(* ================================================================= *)
(** ** The order of [sorted] on file names *)

Module OrderFacts.

Import Transcribe.

Lemma ltb_irrefl a : PyStr.ltb a a = false.
Proof.
  induction a as [| x a IH]; simpl; [reflexivity |].
  rewrite N.ltb_irrefl. exact IH.
Qed.

Lemma ltb_trans a : forall b c,
  PyStr.ltb a b = true -> PyStr.ltb b c = true -> PyStr.ltb a c = true.
Proof.
  induction a as [| x a IH]; intros [| y b] [| z c]; simpl; auto;
    try discriminate.
  destruct (x <? y)%N eqn:Hxy, (y <? z)%N eqn:Hyz, (x <? z)%N eqn:Hxz;
    auto; rewrite ?N.ltb_lt, ?N.ltb_ge in *; try lia;
    destruct (y <? x)%N eqn:Hyx, (z <? y)%N eqn:Hzy, (z <? x)%N eqn:Hzx;
    rewrite ?N.ltb_lt, ?N.ltb_ge in *; try discriminate; try lia;
    intros; eauto.
Qed.

Lemma ltb_total a : forall b,
  PyStr.ltb a b = false -> PyStr.ltb b a = false -> a = b.
Proof.
  induction a as [| x a IH]; intros [| y b]; simpl; auto; try discriminate.
  destruct (x <? y)%N eqn:Hxy, (y <? x)%N eqn:Hyx; try discriminate.
  rewrite N.ltb_ge in Hxy, Hyx. intros Hab Hba.
  f_equal; [lia | auto].
Qed.

Lemma ltb_asym a b : PyStr.ltb a b = true -> PyStr.ltb b a = false.
Proof.
  intros H. destruct (PyStr.ltb b a) eqn:Hba; [| reflexivity].
  pose proof (ltb_trans _ _ _ H Hba) as Haa.
  rewrite ltb_irrefl in Haa. discriminate.
Qed.

Lemma leb_refl a : PyStr.leb a a = true.
Proof. unfold PyStr.leb. rewrite ltb_irrefl. reflexivity. Qed.

Lemma ltb_leb a b : PyStr.ltb a b = true -> PyStr.leb a b = true.
Proof. intros H. unfold PyStr.leb. rewrite (ltb_asym _ _ H). reflexivity. Qed.

Lemma leb_trans a b c :
  PyStr.leb a b = true -> PyStr.leb b c = true -> PyStr.leb a c = true.
Proof.
  unfold PyStr.leb. rewrite !negb_true_iff. intros Hba Hcb.
  destruct (PyStr.ltb c a) eqn:Hca; [| reflexivity].
  destruct (PyStr.ltb a b) eqn:Hab.
  - rewrite (ltb_trans _ _ _ Hca Hab) in Hcb. discriminate.
  - rewrite (ltb_total _ _ Hab Hba) in Hca. congruence.
Qed.

Lemma insert_perm x l : Permutation (x :: l) (insert x l).
Proof.
  induction l as [| y l IH]; simpl; [reflexivity |].
  destruct (PyStr.ltb y x); [| reflexivity].
  rewrite perm_swap. constructor. exact IH.
Qed.

Lemma sorted_perm l : Permutation l (sorted l).
Proof.
  induction l as [| x l IH]; simpl; [constructor |].
  rewrite <- insert_perm. constructor. exact IH.
Qed.

Lemma insert_sorted x l :
  StronglySorted le l -> StronglySorted le (insert x l).
Proof.
  induction 1 as [| y l Hl IH Hy]; simpl.
  - repeat constructor.
  - destruct (PyStr.ltb y x) eqn:Hyx.
    + constructor; [exact IH |].
      apply (Permutation_Forall (insert_perm x l)).
      constructor; [apply ltb_leb; exact Hyx | exact Hy].
    + assert (Hxy : le x y) by (unfold le, PyStr.leb; rewrite Hyx; reflexivity).
      constructor; [constructor; assumption |].
      constructor; [exact Hxy |].
      eapply Forall_impl; [| exact Hy].
      intros z Hz. exact (leb_trans _ _ _ Hxy Hz).
Qed.

Lemma sorted_sorted l : StronglySorted le (sorted l).
Proof.
  induction l as [| x l IH]; simpl; [constructor |].
  apply insert_sorted. exact IH.
Qed.



End OrderFacts.

(* ================================================================= *)
(** ** [transcribe_chunks]: records, failures and the manifest *)

Module TranscribeFacts.

Import Transcribe Manifest OrderFacts.

Section Facts.

Variable E : env.
Variables (api_url chunks_dir output_json : pystr) (timeout : Z).

Local Abbreviation request := (request E api_url timeout).
Local Abbreviation transcribe_file := (transcribe_file E api_url timeout).
Local Abbreviation transcribe_loop :=
  (transcribe_loop E api_url chunks_dir timeout).
Local Abbreviation transcribe_chunks :=
  (transcribe_chunks E api_url chunks_dir output_json timeout).
Local Abbreviation path := (path_join chunks_dir).

Local Abbreviation recorded := (recorded E api_url chunks_dir timeout).
Local Abbreviation network_only := (network_only E api_url timeout).

Lemma posts_app files1 files2 :
  posts api_url chunks_dir (files1 ++ files2)
  = posts api_url chunks_dir files1 ++ posts api_url chunks_dir files2.
Proof. apply map_app. Qed.

(** The loop over files that are all recorded. *)
Lemma transcribe_loop_recorded files recs :
  recorded files recs ->
  forall data trace,
    transcribe_loop files data trace
    = (Ok (data ++ recs), trace ++ posts api_url chunks_dir files).
Proof.
  induction 1 as [| file r files recs Hr _ IH]; intros data trace; simpl.
  - rewrite !app_nil_r. reflexivity.
  - rewrite Hr, IH, <- !app_assoc. reflexivity.
Qed.

(** The loop that meets a file whose processing raises. *)
Lemma transcribe_loop_raises pre recs file e post :
  recorded pre recs ->
  transcribe_file (path file) = Raise e ->
  forall data trace,
    transcribe_loop (pre ++ file :: post) data trace
    = (Raise e, trace ++ posts api_url chunks_dir (pre ++ [file])).
Proof.
  induction 1 as [| f r pre recs Hr _ IH]; intros He data trace; simpl.
  - rewrite He. reflexivity.
  - rewrite Hr, IH by exact He. rewrite <- app_assoc. reflexivity.
Qed.

(** Every run of the loop is one of the two. *)
Lemma transcribe_loop_cases files : forall data trace,
  (exists recs,
      recorded files recs /\
      transcribe_loop files data trace
      = (Ok (data ++ recs), trace ++ posts api_url chunks_dir files)) \/
  (exists pre recs file e post,
      files = pre ++ file :: post /\
      recorded pre recs /\
      transcribe_file (path file) = Raise e /\
      transcribe_loop files data trace
      = (Raise e, trace ++ posts api_url chunks_dir (pre ++ [file]))).
Proof.
  induction files as [| file rest IH]; intros data trace.
  - left. exists []. split; [constructor |]. simpl.
    rewrite !app_nil_r. reflexivity.
  - simpl. destruct (transcribe_file (path file)) as [r | e] eqn:Hfile.
    + destruct (IH (data ++ [r]) (trace ++ [Post api_url (path file)]))
        as [(recs & Hrec & Heq) | (pre & recs & f & e & post & -> & Hrec & He & Heq)].
      * left. exists (r :: recs). split; [constructor; assumption |].
        rewrite Heq, <- !app_assoc. reflexivity.
      * right. exists (file :: pre), (r :: recs), f, e, post.
        repeat split; auto; [constructor; assumption |].
        rewrite Heq, <- !app_assoc. reflexivity.
    + right. exists [], [], file, e, rest. repeat split; auto. constructor.
Qed.

Lemma posts_no_manifest files p d :
  ~ In (WriteJson p d) (posts api_url chunks_dir files).
Proof.
  unfold posts. rewrite in_map_iff. intros (f & Hf & _). discriminate.
Qed.

Lemma manifests_posts files : manifests (posts api_url chunks_dir files) = [].
Proof. induction files as [| f files IH]; simpl; auto. Qed.

Lemma manifests_app t1 t2 : manifests (t1 ++ t2) = manifests t1 ++ manifests t2.
Proof. apply flat_map_app. Qed.

(** A successful request gives the record of its file. *)
Lemma request_Ok p r :
  request p = Ok r -> exists text d, r = record p text d.
Proof.
  unfold Transcribe.request. intros H.
  apply bind_Ok in H as (resp & _ & H).
  destruct (raise_for_status resp); [discriminate |].
  apply bind_Ok in H as (body & _ & H).
  apply bind_Ok in H as (text & _ & H).
  apply bind_Ok in H as (? & _ & H).
  apply bind_Ok in H as (d & _ & H).
  injection H as <-. eauto.
Qed.

(** A request that times out, on a segment that can be measured, gives the
    record of a timeout. *)
Lemma transcribe_file_timeout p e d :
  request p = Raise e -> is_Timeout e = true ->
  duration_seconds E p = Ok d ->
  transcribe_file p
  = Ok (error_record p (SFmul prec emax d f1000) (lit "timeout")).
Proof.
  intros He Ht Hd. unfold Transcribe.transcribe_file, duration_ms.
  rewrite He, Ht, Hd. reflexivity.
Qed.

(** A failure that is not one of [requests] leaves the loop. *)
Lemma transcribe_file_raises p e :
  request p = Raise e -> is_RequestException e = false ->
  transcribe_file p = Raise e.
Proof.
  intros He Hn. unfold Transcribe.transcribe_file.
  rewrite He, Hn, (not_request_not_timeout e Hn). reflexivity.
Qed.

(** With network failures only, a file gives a record, and it is its own. *)
Lemma network_only_record p :
  network_only p ->
  exists r, transcribe_file p = Ok r /\ field r "file" = Some (JString p).
Proof.
  intros Hnet. unfold Transcribe.transcribe_file.
  destruct (request p) as [r | e] eqn:Hreq.
  - apply request_Ok in Hreq as (text & d & ->). eexists. split; reflexivity.
  - destruct (Hnet e Hreq) as (Hre & d & Hd).
    unfold duration_ms. rewrite Hre, Hd.
    destruct (is_Timeout e); eexists; split; reflexivity.
Qed.

Lemma network_only_recorded files :
  Forall (fun file => network_only (path file)) files ->
  exists recs,
    recorded files recs /\
    map (fun r => field r "file") recs
    = map (fun file => Some (JString (path file))) files.
Proof.
  induction 1 as [| file files Hfile _ (recs & Hrec & Hmap)].
  - exists []. split; constructor.
  - destruct (network_only_record _ Hfile) as (r & Hr & Hf).
    exists (r :: recs). split; [constructor; assumption |].
    simpl. rewrite Hf, Hmap. reflexivity.
Qed.

Lemma recorded_length files recs :
  recorded files recs -> List.length recs = List.length files.
Proof. induction 1; simpl; auto. Qed.

(** The whole function on a directory whose files are all recorded. *)
Lemma transcribe_chunks_recorded names recs :
  path_exists E chunks_dir = true ->
  listdir E chunks_dir = Ok names ->
  wav_files names <> [] ->
  recorded (wav_files names) recs ->
  write_json E output_json (JArray recs) = None ->
  transcribe_chunks
  = (Ok recs, posts api_url chunks_dir (wav_files names)
              ++ [WriteJson output_json (JArray recs)]).
Proof.
  intros Hdir Hls Hne Hrec Hw. unfold Transcribe.transcribe_chunks.
  rewrite Hdir, Hls. cbn [negb].
  destruct (wav_files names) as [| f files] eqn:Hfiles; [congruence |].
  cbv beta iota.
  rewrite (transcribe_loop_recorded _ _ Hrec). cbn [app]. rewrite Hw.
  reflexivity.
Qed.

(** The whole function on a directory with a file that leaves the loop. *)
Lemma transcribe_chunks_raises names pre recs file post e :
  path_exists E chunks_dir = true ->
  listdir E chunks_dir = Ok names ->
  wav_files names = pre ++ file :: post ->
  recorded pre recs ->
  transcribe_file (path file) = Raise e ->
  transcribe_chunks = (Raise e, posts api_url chunks_dir (pre ++ [file])).
Proof.
  intros Hdir Hls Hfiles Hrec He. unfold Transcribe.transcribe_chunks.
  rewrite Hdir, Hls. cbn [negb].
  destruct (wav_files names) as [| f files] eqn:Hw.
  - destruct pre; discriminate.
  - cbv beta iota.
    rewrite Hfiles, (transcribe_loop_raises _ _ _ _ _ Hrec He). reflexivity.
Qed.

(** C3, as the code has it.  On an existing directory where whatever fails
    for a file is a network failure, and whose manifest can be written,
    [transcribe_chunks] returns one record per .wav file, each the record of
    the file at its position in the sorted enumeration.  With at least one
    .wav file the manifest written is that list; with none, the empty list is
    returned and nothing is written. *)
Theorem one_record_per_file names :
  path_exists E chunks_dir = true ->
  listdir E chunks_dir = Ok names ->
  Forall (fun file => network_only (path file)) (wav_files names) ->
  (forall data, write_json E output_json data = None) ->
  exists data,
    fst transcribe_chunks = Ok data /\
    List.length data = List.length (wav_files names) /\
    map (fun r => field r "file") data
    = map (fun file => Some (JString (path file))) (wav_files names) /\
    (wav_files names <> [] ->
     snd transcribe_chunks
     = posts api_url chunks_dir (wav_files names)
       ++ [WriteJson output_json (JArray data)]) /\
    (wav_files names = [] -> snd transcribe_chunks = []).
Proof.
  intros Hdir Hls Hnet Hw.
  destruct (network_only_recorded _ Hnet) as (recs & Hrec & Hfile).
  exists recs.
  destruct (wav_files names) as [| f files] eqn:Hfiles.
  - inversion Hrec; subst. unfold Transcribe.transcribe_chunks.
    rewrite Hdir, Hls, Hfiles. simpl. repeat split; auto. congruence.
  - assert (Hne : wav_files names <> []) by (rewrite Hfiles; discriminate).
    rewrite <- Hfiles in Hrec.
    rewrite (transcribe_chunks_recorded names recs Hdir Hls Hne Hrec (Hw _)).
    rewrite Hfiles in *. simpl fst. simpl snd.
    repeat split; auto.
    + apply (recorded_length _ _ Hrec).
    + discriminate.
Qed.

(** C4. A request that times out gives, for its file, the record with the
    empty text, the measured duration and the error "timeout".  The loop goes
    on: when the other files are recorded and the manifest can be written,
    [transcribe_chunks] returns, and writes after the last request, the
    records of the files before, the record of the timeout, and the records
    of the files after. *)
Theorem timeout_is_recorded names pre file post before after e d :
  path_exists E chunks_dir = true ->
  listdir E chunks_dir = Ok names ->
  wav_files names = pre ++ file :: post ->
  request (path file) = Raise e ->
  is_Timeout e = true ->
  duration_seconds E (path file) = Ok d ->
  recorded pre before ->
  recorded post after ->
  (forall data, write_json E output_json data = None) ->
  let r := JObject [(lit "file", JString (path file));
                    (lit "text", JString []);
                    (lit "duration_ms", JFloat (SFmul prec emax d f1000));
                    (lit "error", JString (lit "timeout"))] in
  transcribe_file (path file) = Ok r /\
  transcribe_chunks
  = (Ok (before ++ r :: after),
     posts api_url chunks_dir (wav_files names)
     ++ [WriteJson output_json (JArray (before ++ r :: after))]).
Proof.
  intros Hdir Hls Hfiles He Ht Hd Hpre Hpost Hw r.
  pose proof (transcribe_file_timeout _ _ _ He Ht Hd) as Hr.
  split; [exact Hr |].
  apply transcribe_chunks_recorded; auto.
  - rewrite Hfiles. destruct pre; discriminate.
  - rewrite Hfiles. unfold Transcribe.recorded.
    apply Forall2_app; [exact Hpre |].
    constructor; [exact Hr | exact Hpost].
Qed.

(** C5. A manifest is written only by a run that processed every file, as
    the last effect, after the requests for all of them.  When a file fails
    with an exception that is not one of [requests], the run raises that
    exception; its trace holds the requests up to that file and no more, and
    no manifest. *)
Theorem manifest_only_after_all_files :
  (forall p d,
      In (WriteJson p d) (snd transcribe_chunks) ->
      exists names data,
        listdir E chunks_dir = Ok names /\
        recorded (wav_files names) data /\
        p = output_json /\ d = JArray data /\
        transcribe_chunks
        = (Ok data, posts api_url chunks_dir (wav_files names)
                    ++ [WriteJson output_json (JArray data)])) /\
  (forall names pre before file post e,
      path_exists E chunks_dir = true ->
      listdir E chunks_dir = Ok names ->
      wav_files names = pre ++ file :: post ->
      recorded pre before ->
      request (path file) = Raise e ->
      is_RequestException e = false ->
      transcribe_chunks
      = (Raise e, posts api_url chunks_dir (pre ++ [file])) /\
      manifests (snd transcribe_chunks) = []).
Proof.
  split.
  - intros p d. unfold Transcribe.transcribe_chunks.
    destruct (path_exists E chunks_dir); cbn [negb]; [| intros []].
    destruct (listdir E chunks_dir) as [names | e] eqn:Hls; [| intros []].
    destruct (wav_files names) as [| f files] eqn:Hfiles; [intros [] |].
    cbv beta iota.
    destruct (transcribe_loop_cases (f :: files) [] [])
      as [(recs & Hrec & Heq) | (pre & recs & g & e & post & _ & _ & _ & Heq)];
      rewrite Heq; cbn [app].
    + destruct (write_json E output_json (JArray recs)); cbn [snd];
        intros Hin; apply in_app_or in Hin as [Hin | [Hin | []]];
        try (apply posts_no_manifest in Hin; contradiction);
        try discriminate.
      injection Hin as <- <-. exists names, recs.
      rewrite Hfiles. repeat split; auto.
    + cbn [snd]. intros Hin. apply posts_no_manifest in Hin. contradiction.
  - intros names pre before file post e Hdir Hls Hfiles Hpre He Hn.
    pose proof (transcribe_file_raises _ _ He Hn) as Hraise.
    rewrite (transcribe_chunks_raises names pre before file post e
               Hdir Hls Hfiles Hpre Hraise).
    split; [reflexivity |]. apply manifests_posts.
Qed.

Lemma posted_posts files :
  posted (posts api_url chunks_dir files) = map path files.
Proof. induction files as [| f files IH]; simpl; congruence. Qed.

Lemma posted_app t1 t2 : posted (t1 ++ t2) = posted t1 ++ posted t2.
Proof. apply flat_map_app. Qed.

(** The requests of a run go through the sorted .wav files, from the first
    one on. *)
Lemma requests_in_sorted_order names :
  listdir E chunks_dir = Ok names ->
  exists k, posted (snd transcribe_chunks)
            = map path (firstn k (wav_files names)).
Proof.
  intros Hls. unfold Transcribe.transcribe_chunks. rewrite Hls.
  destruct (path_exists E chunks_dir); cbn [negb]; [| exists 0%nat; reflexivity].
  destruct (wav_files names) as [| f files] eqn:Hfiles;
    [exists 0%nat; reflexivity |].
  cbv beta iota.
  destruct (transcribe_loop_cases (f :: files) [] [])
    as [(recs & Hrec & Heq) | (pre & recs & g & e & post & Hsplit & _ & _ & Heq)];
    rewrite Heq; cbn [app].
  - exists (List.length (f :: files)). rewrite firstn_all.
    destruct (write_json E output_json (JArray recs)); cbn [snd];
      rewrite posted_app, posted_posts; simpl; rewrite app_nil_r; reflexivity.
  - exists (List.length (pre ++ [g])). cbn [snd]. rewrite posted_posts, Hsplit.
    replace (pre ++ g :: post) with ((pre ++ [g]) ++ post)
      by (rewrite <- app_assoc; reflexivity).
    rewrite firstn_app, firstn_all, Nat.sub_diag. simpl.
    rewrite app_nil_r. reflexivity.
Qed.

End Facts.

Lemma one_record_per_file_witness :
  exists data,
    fst (Samples.transcribe Samples.three_chunks Samples.timeout_on_1)
    = Ok data /\
    List.length data = List.length (wav_files Samples.three_chunks) /\
    map (fun r => field r "file") data
    = map (fun file => Some (JString (path_join (lit "up") file)))
          (wav_files Samples.three_chunks) /\
    (wav_files Samples.three_chunks <> [] ->
     snd (Samples.transcribe Samples.three_chunks Samples.timeout_on_1)
     = posts (lit "http://stt/transcribe") (lit "up")
             (wav_files Samples.three_chunks)
       ++ [WriteJson (lit "up/transcriptions.json") (JArray data)]) /\
    (wav_files Samples.three_chunks = [] ->
     snd (Samples.transcribe Samples.three_chunks Samples.timeout_on_1) = []).
Proof.
  apply (one_record_per_file
           (Samples.transcribe_env Samples.three_chunks Samples.timeout_on_1)
           (lit "http://stt/transcribe") (lit "up")
           (lit "up/transcriptions.json") 60 Samples.three_chunks);
    try reflexivity.
  change (wav_files Samples.three_chunks)
    with [lit "chunk_0.wav"; lit "chunk_1.wav"; lit "chunk_2.wav"].
  constructor; [| constructor; [| constructor; [| constructor]]];
    intros e He; vm_compute in He; try discriminate He.
  injection He as <-. split; [reflexivity |]. eexists. reflexivity.
Defined.

(** C3, as the claim has it, fails on a directory without .wav files: the run
    returns the empty list and persists no manifest. *)
Lemma no_wav_file_no_manifest :
  wav_files [lit "chunks.json"; lit "notes.txt"] = [] /\
  Samples.transcribe [lit "chunks.json"; lit "notes.txt"]
                     (fun _ => Samples.answer "alpha")
  = (Ok [], []) /\
  manifests (snd (Samples.transcribe [lit "chunks.json"; lit "notes.txt"]
                                     (fun _ => Samples.answer "alpha")))
  = [].
Proof. repeat split. Qed.

Lemma timeout_is_recorded_witness :
  exists before after d,
    Samples.transcribe Samples.three_chunks Samples.timeout_on_1
    = (Ok (before
           ++ JObject [(lit "file", JString (lit "up/chunk_1.wav"));
                       (lit "text", JString []);
                       (lit "duration_ms", JFloat d);
                       (lit "error", JString (lit "timeout"))]
           :: after),
       posts (lit "http://stt/transcribe") (lit "up")
             (wav_files Samples.three_chunks)
       ++ [WriteJson (lit "up/transcriptions.json")
             (JArray (before
                      ++ JObject [(lit "file", JString (lit "up/chunk_1.wav"));
                                  (lit "text", JString []);
                                  (lit "duration_ms", JFloat d);
                                  (lit "error", JString (lit "timeout"))]
                      :: after))]) /\
    List.length before = 1%nat /\ List.length after = 1%nat.
Proof.
  do 3 eexists. split.
  - refine (proj2 (timeout_is_recorded
                     (Samples.transcribe_env Samples.three_chunks
                                             Samples.timeout_on_1)
                     (lit "http://stt/transcribe") (lit "up")
                     (lit "up/transcriptions.json") 60 Samples.three_chunks
                     [lit "chunk_0.wav"] (lit "chunk_1.wav")
                     [lit "chunk_2.wav"] _ _
                     (Exn Timeout (lit "Read timed out.")) _
                     eq_refl eq_refl eq_refl eq_refl eq_refl eq_refl
                     _ _ (fun _ => eq_refl))).
    + constructor; [reflexivity | constructor].
    + constructor; [reflexivity | constructor].
  - split; reflexivity.
Defined.

Lemma manifest_only_after_all_files_witness :
  Samples.transcribe Samples.three_chunks Samples.list_on_1
  = (Raise (Py.no_attribute (JArray []) "get"),
     posts (lit "http://stt/transcribe") (lit "up")
           ([lit "chunk_0.wav"] ++ [lit "chunk_1.wav"])) /\
  manifests (snd (Samples.transcribe Samples.three_chunks Samples.list_on_1))
  = [].
Proof.
  refine (proj2 (manifest_only_after_all_files
                   (Samples.transcribe_env Samples.three_chunks
                                           Samples.list_on_1)
                   (lit "http://stt/transcribe") (lit "up")
                   (lit "up/transcriptions.json") 60)
                Samples.three_chunks [lit "chunk_0.wav"] _
                (lit "chunk_1.wav") [lit "chunk_2.wav"] _
                eq_refl eq_refl eq_refl _ eq_refl eq_refl).
  constructor; [reflexivity | constructor].
Defined.





End TranscribeFacts.

(* ================================================================= *)
(** ** [split_audio]: the files of a run *)

Module SplitFacts.

Import Split.

Lemma of_uint_inj u : forall v, of_uint u = of_uint v -> u = v.
Proof.
  induction u as [| u IH | u IH | u IH | u IH | u IH | u IH | u IH | u IH
                  | u IH | u IH];
    intros [| v | v | v | v | v | v | v | v | v | v]; cbn;
    intros H; try discriminate H; try reflexivity;
    injection H as H; f_equal; apply IH; exact H.
Qed.

Lemma of_nat_inj i j : of_nat i = of_nat j -> i = j.
Proof.
  intros H. apply DecimalNat.Unsigned.to_uint_inj, of_uint_inj. exact H.
Qed.

Lemma chunk_name_inj i j : chunk_name i = chunk_name j -> i = j.
Proof.
  unfold chunk_name. intros H.
  apply app_inv_head, app_inv_tail in H. apply of_nat_inj. exact H.
Qed.

Lemma chunk_name_not_manifest i : chunk_name i <> lit "chunks.json".
Proof. unfold chunk_name. cbn. intros H. discriminate H. Qed.

Lemma chunk_name_relative i : startswith (chunk_name i) (lit "/") = false.
Proof. reflexivity. Qed.

(** [os.path.join] puts a relative name behind a prefix made from the
    directory alone. *)
Lemma path_join_relative a :
  exists pre, forall p, startswith p (lit "/") = false ->
                        path_join a p = pre ++ p.
Proof.
  destruct ((match a with [] => true | _ => false end)
            || endswith a (lit "/")) eqn:Ha.
  - exists a. intros p Hp. unfold path_join. rewrite Hp, Ha. reflexivity.
  - exists (a ++ lit "/"). intros p Hp. unfold path_join.
    rewrite Hp, Ha, <- app_assoc. reflexivity.
Qed.

Section Facts.

Variable E : env.
Variables (audio_path output_dir : pystr).
Variables (min_silence_len silence_thresh_offset keep_silence : Z).
Variable audio_format : pystr.

Local Abbreviation export_loop := (export_loop E output_dir).
Local Abbreviation detect :=
  (detect E audio_path min_silence_len silence_thresh_offset keep_silence
          audio_format).
Local Abbreviation split_audio :=
  (split_audio E audio_path output_dir min_silence_len silence_thresh_offset
               keep_silence audio_format).
Local Abbreviation path := (path_join output_dir).

(** A loop that ends well exported every chunk and recorded it, in order. *)
Lemma export_loop_Ok chunks : forall i metadata trace metadata' trace',
  export_loop chunks i metadata trace = (Ok metadata', trace') ->
  metadata' = metadata ++ segment_records output_dir i chunks /\
  trace' = trace ++ exports output_dir i chunks.
Proof.
  induction chunks as [| chunk rest IH]; intros i metadata trace metadata' trace';
    simpl.
  - intros [= <- <-]. rewrite !app_nil_r. split; reflexivity.
  - destruct (export E chunk (path (chunk_name i))); [discriminate |].
    intros H. apply IH in H as [-> ->].
    rewrite <- !app_assoc. split; reflexivity.
Qed.

Lemma written_exports chunks : forall i,
  written (exports output_dir i chunks)
  = map (fun k => path (chunk_name k)) (seq i (List.length chunks)).
Proof.
  induction chunks as [| chunk rest IH]; intros i; [reflexivity |].
  cbn. f_equal. apply IH.
Qed.

Lemma written_app t1 t2 : written (t1 ++ t2) = written t1 ++ written t2.
Proof. apply flat_map_app. Qed.

(** The chunk files and the manifest of a directory are different files. *)
Lemma chunk_paths_NoDup i n :
  NoDup (map (fun k => path (chunk_name k)) (seq i n)
         ++ [path (lit "chunks.json")]).
Proof.
  destruct (path_join_relative output_dir) as (pre & Hpre).
  rewrite (Hpre (lit "chunks.json") eq_refl).
  rewrite (map_ext _ (fun k => pre ++ chunk_name k))
    by (intros k; apply Hpre, chunk_name_relative).
  apply NoDup_app.
  - apply Injective_map_NoDup_in; [| apply seq_NoDup].
    intros x y _ _ H. apply app_inv_head in H. apply chunk_name_inj. exact H.
  - repeat constructor. intros [].
  - intros a Ha [Hb | []]. apply in_map_iff in Ha as (k & Hk & _).
    rewrite <- Hb in Hk. apply app_inv_head in Hk.
    apply (chunk_name_not_manifest k). exact Hk.
Qed.

(** What a run that ends well on the detected [chunks] returned and did. *)
Lemma split_audio_returned chunks metadata trace :
  detect = Ok chunks ->
  split_audio = (Ok metadata, trace) ->
  metadata = segment_records output_dir 0 chunks /\
  (chunks = [] -> metadata = [] /\ written trace = []) /\
  (chunks <> [] ->
   trace = [MakeDirs output_dir] ++ exports output_dir 0 chunks
           ++ [WriteJson (chunks_json_path output_dir) (JArray metadata)] /\
   written trace
   = map (fun i => path (chunk_name i)) (seq 0 (List.length chunks))
     ++ [chunks_json_path output_dir] /\
   List.length (written trace) = S (List.length chunks) /\
   NoDup (written trace)).
Proof.
  intros Hdetect. unfold Split.split_audio.
  destruct (path_exists E audio_path); cbn [negb]; [| discriminate].
  destruct ((min_silence_len <=? 0) || (silence_thresh_offset <=? 0)
            || (keep_silence <? 0)); [discriminate |].
  destruct (makedirs E output_dir); [discriminate |].
  rewrite Hdetect. destruct chunks as [| chunk rest].
  - intros [= <- <-]. split; [reflexivity |].
    split; [intros _; split; reflexivity | intros H; congruence].
  - destruct (export_loop (chunk :: rest) 0 [] [MakeDirs output_dir])
      as [[md | e] tr] eqn:Hloop; [| discriminate].
    apply export_loop_Ok in Hloop as [-> ->].
    destruct (write_json E _ _); [discriminate |].
    intros H. injection H as Hm' Ht'.
    assert (Hm : metadata = segment_records output_dir 0 (chunk :: rest))
      by (rewrite <- Hm'; reflexivity).
    assert (Ht : trace
                 = [MakeDirs output_dir] ++ exports output_dir 0 (chunk :: rest)
                   ++ [WriteJson (chunks_json_path output_dir)
                         (JArray metadata)])
      by (rewrite <- Ht', Hm; reflexivity).
    clear Hm' Ht'.
    assert (Hw : written trace
                 = map (fun i => path (chunk_name i))
                       (seq 0 (List.length (chunk :: rest)))
                   ++ [chunks_json_path output_dir]).
    { rewrite Ht, !written_app, written_exports. reflexivity. }
    split; [exact Hm |]. split; [discriminate |]. intros _.
    split; [exact Ht |]. split; [exact Hw |]. rewrite Hw. split.
    + rewrite length_app, length_map, length_seq. simpl. lia.
    + apply chunk_paths_NoDup.
Qed.

(** A loop whose exports all succeed. *)
Lemma export_loop_all chunks : forall i metadata trace,
  (forall k chunk, nth_error chunks k = Some chunk ->
                   export E chunk (path (chunk_name (i + k))) = None) ->
  export_loop chunks i metadata trace
  = (Ok (metadata ++ segment_records output_dir i chunks),
     trace ++ exports output_dir i chunks).
Proof.
  induction chunks as [| chunk rest IH]; intros i metadata trace Hall; simpl.
  - rewrite !app_nil_r. reflexivity.
  - pose proof (Hall 0%nat chunk eq_refl) as H0.
    rewrite Nat.add_0_r in H0. rewrite H0, IH.
    + rewrite <- !app_assoc. reflexivity.
    + intros k c Hk. replace (S i + k)%nat with (i + S k)%nat by lia.
      apply Hall. exact Hk.
Qed.

(** C8, as the code has it.  The audio in place, the parameters valid and the
    directory made, a run on [N] detected segments goes as follows.  For
    [N = 0] it returns the empty list, without an exception, and writes no
    file, the manifest included.  For [N >= 1], when the exports and the
    write succeed, it returns the [N] records in detection order, having
    exported the [N] files [chunk_0.wav], ..., in that order and then
    written the manifest [chunks.json] holding the records.  Every run that
    ends well on [N >= 1] segments did exactly that: [N + 1] different
    files. *)
Theorem split_audio_files chunks :
  path_exists E audio_path = true ->
  0 < min_silence_len -> 0 < silence_thresh_offset -> 0 <= keep_silence ->
  makedirs E output_dir = None ->
  detect = Ok chunks ->
  (chunks = [] ->
   split_audio = (Ok [], [MakeDirs output_dir]) /\
   written (snd split_audio) = []) /\
  (chunks <> [] ->
   (forall i chunk, nth_error chunks i = Some chunk ->
                    export E chunk (path (chunk_name i)) = None) ->
   write_json E (chunks_json_path output_dir)
              (JArray (segment_records output_dir 0 chunks)) = None ->
   split_audio
   = (Ok (segment_records output_dir 0 chunks),
      [MakeDirs output_dir] ++ exports output_dir 0 chunks
      ++ [WriteJson (chunks_json_path output_dir)
            (JArray (segment_records output_dir 0 chunks))])) /\
  (forall metadata trace,
      split_audio = (Ok metadata, trace) ->
      metadata = segment_records output_dir 0 chunks /\
      (chunks = [] -> metadata = [] /\ written trace = []) /\
      (chunks <> [] ->
       trace = [MakeDirs output_dir] ++ exports output_dir 0 chunks
               ++ [WriteJson (chunks_json_path output_dir) (JArray metadata)] /\
       written trace
       = map (fun i => path (chunk_name i)) (seq 0 (List.length chunks))
         ++ [chunks_json_path output_dir] /\
       List.length (written trace) = S (List.length chunks) /\
       NoDup (written trace))).
Proof.
  intros Hexists Hmsl Hsto Hks Hmk Hdetect.
  assert (Hrun : split_audio
                 = match chunks with
                   | [] => (Ok [], [MakeDirs output_dir])
                   | _ :: _ =>
                       match export_loop chunks 0 [] [MakeDirs output_dir] with
                       | (Raise e, trace') => (Raise e, trace')
                       | (Ok metadata, trace') =>
                           match write_json E (chunks_json_path output_dir)
                                            (JArray metadata) with
                           | Some e =>
                               (Raise e,
                                trace' ++ [WriteFailed
                                             (chunks_json_path output_dir)])
                           | None =>
                               (Ok metadata,
                                trace' ++ [WriteJson
                                             (chunks_json_path output_dir)
                                             (JArray metadata)])
                           end
                       end
                   end).
  { unfold Split.split_audio. rewrite Hexists. cbn [negb].
    replace (min_silence_len <=? 0) with false
      by (symmetry; apply Z.leb_gt; lia).
    replace (silence_thresh_offset <=? 0) with false
      by (symmetry; apply Z.leb_gt; lia).
    replace (keep_silence <? 0) with false
      by (symmetry; apply Z.ltb_ge; lia).
    cbn [orb]. rewrite Hmk, Hdetect. destruct chunks; reflexivity. }
  split; [| split].
  - intros ->. rewrite Hrun. split; reflexivity.
  - intros Hne Hexp Hw. rewrite Hrun.
    destruct chunks as [| chunk rest]; [congruence |].
    rewrite (export_loop_all (chunk :: rest) 0 [] [MakeDirs output_dir] Hexp).
    cbn [app]. cbn [app] in Hw. rewrite Hw. reflexivity.
  - intros metadata trace. apply split_audio_returned. exact Hdetect.
Qed.

End Facts.

Lemma split_audio_files_witness :
  Samples.split [] = (Ok [], [MakeDirs (lit "up")]) /\
  fst (Samples.split Samples.two_segments)
  = Ok (segment_records (lit "up") 0 Samples.two_segments) /\
  written (snd (Samples.split Samples.two_segments))
  = [lit "up/chunk_0.wav"; lit "up/chunk_1.wav"; lit "up/chunks.json"] /\
  NoDup (written (snd (Samples.split Samples.two_segments))).
Proof.
  pose proof (split_audio_files (Samples.split_env [])
                (lit "quran.mp3") (lit "up") 100 16 25 (lit "mp3") []
                eq_refl eq_refl eq_refl ltac:(discriminate) eq_refl eq_refl)
    as (Hnone & _ & _).
  pose proof (split_audio_files (Samples.split_env Samples.two_segments)
                (lit "quran.mp3") (lit "up") 100 16 25 (lit "mp3")
                Samples.two_segments
                eq_refl eq_refl eq_refl ltac:(discriminate) eq_refl eq_refl)
    as (_ & Hsome & Hret).
  split; [exact (proj1 (Hnone eq_refl)) |].
  assert (Hrun : Samples.split Samples.two_segments
                 = (Ok (segment_records (lit "up") 0 Samples.two_segments),
                    [MakeDirs (lit "up")]
                    ++ exports (lit "up") 0 Samples.two_segments
                    ++ [WriteJson (chunks_json_path (lit "up"))
                          (JArray (segment_records (lit "up") 0
                                                   Samples.two_segments))])).
  { apply Hsome; [discriminate | reflexivity | reflexivity]. }
  destruct (Hret _ _ Hrun) as (_ & _ & Hfiles).
  destruct (Hfiles ltac:(discriminate)) as (_ & Hw & _ & Hnd).
  unfold Samples.split in *. rewrite Hrun.
  split; [reflexivity |]. split; [exact Hw | exact Hnd].
Defined.

(** C8, as the claim has it, fails when no segment is detected: the run ends
    well with the empty list, and writes no file at all, where the claim
    counts one (the manifest). *)
Lemma no_segment_no_manifest :
  Samples.split [] = (Ok [], [MakeDirs (lit "up")]) /\
  written (snd (Samples.split [])) = [] /\
  List.length (written (snd (Samples.split []))) = 0%nat.
Proof. repeat split. Qed.

End SplitFacts.

(* ================================================================= *)
(** ** [process_full_pipeline]: the first failure, or success *)

Module PipelineFacts.

Import Pipeline.

Section Facts.

Variable E : env.
Variables (audio_path output_video output_dir : pystr).
Variable api_url : option pystr.
Variables (bg_path font_path : pystr).

Local Abbreviation step_split := (step_split E audio_path output_dir).
Local Abbreviation step_transcribe := (step_transcribe E output_dir).
Local Abbreviation step_video :=
  (step_video E audio_path output_video output_dir bg_path font_path).
Local Abbreviation process_full_pipeline :=
  (process_full_pipeline E audio_path output_video output_dir api_url
                         bg_path font_path).

(** C9. When a stage raises, the stages after it do not run, [results] gets
    the status "failed" and the message of the exception under "error", and
    the exception is raised again to the caller.  When the three stages
    return (the second one possibly skipped, for want of an endpoint), the
    caller gets [results] with the status "success" and every field set. *)
Theorem first_failure_or_success :
  (forall e t1,
      step_split = (Raise e, t1) ->
      process_full_pipeline
      = Run (Raise e)
            [(lit "status", JString (lit "failed"));
             (lit "audio_path", JString audio_path);
             (lit "error", JString (exn_str e))]
            t1) /\
  (forall chunks t1 url e t2,
      step_split = (Ok chunks, t1) ->
      provided api_url = Some url ->
      step_transcribe url = (Raise e, t2) ->
      process_full_pipeline
      = Run (Raise e)
            [(lit "status", JString (lit "failed"));
             (lit "audio_path", JString audio_path);
             (lit "chunks_count", len chunks);
             (lit "chunks_dir", JString output_dir);
             (lit "error", JString (exn_str e))]
            (t1 ++ t2)) /\
  (forall chunks t1 count t2 e t3,
      step_split = (Ok chunks, t1) ->
      match provided api_url with
      | Some url => exists transcriptions,
                      step_transcribe url = (Ok transcriptions, t2) /\
                      count = len transcriptions
      | None => count = JInt 0 /\ t2 = []
      end ->
      step_video = (Raise e, t3) ->
      process_full_pipeline
      = Run (Raise e)
            [(lit "status", JString (lit "failed"));
             (lit "audio_path", JString audio_path);
             (lit "chunks_count", len chunks);
             (lit "chunks_dir", JString output_dir);
             (lit "transcriptions_count", count);
             (lit "error", JString (exn_str e))]
            (t1 ++ t2 ++ t3)) /\
  (forall chunks t1 count t2 video_path t3,
      step_split = (Ok chunks, t1) ->
      match provided api_url with
      | Some url => exists transcriptions,
                      step_transcribe url = (Ok transcriptions, t2) /\
                      count = len transcriptions
      | None => count = JInt 0 /\ t2 = []
      end ->
      step_video = (Ok video_path, t3) ->
      let results :=
        [(lit "status", JString (lit "success"));
         (lit "audio_path", JString audio_path);
         (lit "chunks_count", len chunks);
         (lit "chunks_dir", JString output_dir);
         (lit "transcriptions_count", count);
         (lit "video_path", JString video_path)] in
      process_full_pipeline = Run (Ok results) results (t1 ++ t2 ++ t3)).
Proof.
  unfold Pipeline.process_full_pipeline. repeat split.
  - intros e t1 H1. rewrite H1. reflexivity.
  - intros chunks t1 url e t2 H1 Hurl H2. rewrite H1, Hurl, H2. reflexivity.
  - intros chunks t1 count t2 e t3 H1 H2 H3. rewrite H1, H3.
    destruct (provided api_url) as [url |].
    + destruct H2 as (tr & -> & ->). reflexivity.
    + destruct H2 as [-> ->]. reflexivity.
  - intros chunks t1 count t2 video_path t3 H1 H2 H3. rewrite H1, H3.
    destruct (provided api_url) as [url |].
    + destruct H2 as (tr & -> & ->). reflexivity.
    + destruct H2 as [-> ->]. reflexivity.
Qed.

End Facts.

Lemma first_failure_or_success_witness :
  (exists results t,
      Samples.pipeline (Some (lit "http://stt/transcribe"))
                       Samples.silent_manifest
      = Run (Raise (Video.no_valid_clips 4)) results t /\
      Py.dict_lookup results (lit "status") = Some (JString (lit "failed")) /\
      Py.dict_lookup results (lit "error")
      = Some (JString (exn_str (Video.no_valid_clips 4))) /\
      written t = [lit "up/chunk_0.wav"; lit "up/chunk_1.wav";
                   lit "up/chunks.json"; lit "up/transcriptions.json"]) /\
  (exists results t,
      Samples.pipeline None Samples.manifest = Run (Ok results) results t /\
      Py.dict_lookup results (lit "status") = Some (JString (lit "success")) /\
      Py.dict_lookup results (lit "chunks_count") = Some (JInt 2) /\
      Py.dict_lookup results (lit "transcriptions_count") = Some (JInt 0) /\
      Py.dict_lookup results (lit "video_path")
      = Some (JString (lit "out.mp4"))).
Proof.
  split.
  - pose proof (first_failure_or_success
                  (Env (Samples.split_env Samples.two_segments)
                       (Samples.transcribe_env Samples.three_chunks
                                               Samples.timeout_on_1)
                       (Samples.video_env Samples.silent_manifest))
                  (lit "quran.mp3") (lit "out.mp4") (lit "up")
                  (Some (lit "http://stt/transcribe"))
                  (lit "bg.png") (lit "font.otf")) as (_ & _ & H3 & _).
    do 2 eexists. split.
    + apply (H3 _ _ _ _ _ _ eq_refl
                (ex_intro _ _ (conj eq_refl eq_refl)) eq_refl).
    + repeat split.
  - pose proof (first_failure_or_success
                  (Env (Samples.split_env Samples.two_segments)
                       (Samples.transcribe_env Samples.three_chunks
                                               Samples.timeout_on_1)
                       (Samples.video_env Samples.manifest))
                  (lit "quran.mp3") (lit "out.mp4") (lit "up") None
                  (lit "bg.png") (lit "font.otf")) as (_ & _ & _ & H4).
    do 2 eexists. split.
    + apply (H4 _ _ _ _ _ _ eq_refl (conj eq_refl eq_refl) eq_refl).
    + repeat split.
Defined.

End PipelineFacts.

(* ================================================================= *)
(** ** Floats: the order of the comparisons *)

Module FloatOrder.

Import FloatFacts.

Lemma SFcompare_antisym a b :
  SFcompare a b = option_map CompOpp (SFcompare b a).
Proof.
  destruct a as [sa | sa | | sa ma ea], b as [sb | sb | | sb mb eb];
    simpl; try reflexivity;
    try (destruct sa; reflexivity); try (destruct sb; reflexivity);
    try (destruct sa, sb; reflexivity).
  assert (Hm : Pos.compare_cont Eq ma mb
               = CompOpp (Pos.compare_cont Eq mb ma))
    by (rewrite (Pos.compare_cont_antisym mb ma Eq); reflexivity).
  destruct sa, sb; simpl; try reflexivity;
    rewrite (Z.compare_antisym ea eb);
    destruct (ea ?= eb); simpl; try reflexivity;
    rewrite Hm; reflexivity.
Qed.

Lemma SFcompare_not_nan a b :
  is_nan a = false -> is_nan b = false -> SFcompare a b <> None.
Proof.
  destruct a as [sa | sa | | sa ma ea], b as [sb | sb | | sb mb eb];
    simpl; try discriminate; intros _ _;
    try (destruct sa; discriminate); try (destruct sb; discriminate);
    destruct sa, sb; discriminate.
Qed.

Lemma fltb_not_nan a b : fltb a b = true -> is_nan a = false /\ is_nan b = false.
Proof.
  unfold fltb, SFltb.
  destruct a as [sa | sa | | sa ma ea], b as [sb | sb | | sb mb eb];
    simpl; try discriminate; auto.
Qed.

Lemma fltb_fleb a b : fltb a b = true -> fleb a b = true.
Proof.
  unfold fltb, fleb, SFltb, SFleb.
  destruct (SFcompare a b) as [[| |] |]; congruence.
Qed.

(** Among numbers, [not (b < a)] is [a <= b]. *)
Lemma not_fltb_fleb a b :
  is_nan a = false -> is_nan b = false -> fltb b a = false -> fleb a b = true.
Proof.
  intros Ha Hb. unfold fltb, fleb, SFltb, SFleb.
  pose proof (SFcompare_not_nan b a Hb Ha) as Hn.
  rewrite (SFcompare_antisym a b).
  destruct (SFcompare b a) as [[| |] |]; simpl; congruence.
Qed.

Lemma fleb_refl a : is_nan a = false -> fleb a a = true.
Proof.
  intros Ha. apply not_fltb_fleb; auto.
  unfold fltb, SFltb. pose proof (SFcompare_antisym a a) as H.
  destruct (SFcompare a a) as [[| |] |]; simpl in H; congruence.
Qed.

(** A third of a number is a number. *)
Lemma fdiv_f3_not_nan d : is_nan d = false -> is_nan (fdiv d f3) = false.
Proof.
  destruct d as [s | s | | s m e]; intros H;
    [reflexivity | reflexivity | discriminate |].
  pose proof (fdiv_finite_signed s m e false 6755399441055744 (-51)) as Hs.
  change (S754_finite false 6755399441055744 (-51)) with f3 in Hs.
  unfold signed in Hs.
  destruct (fdiv (S754_finite s m e) f3); try reflexivity. contradiction.
Qed.

End FloatOrder.

(* ================================================================= *)
(** ** Strings: what [strip] leaves *)

Module StripFacts.

Lemma lstrip_head s c r : lstrip s = c :: r -> isspace c = false.
Proof.
  induction s as [| x s IH]; simpl; [discriminate |].
  destruct (isspace x) eqn:Hx; [exact IH |].
  intros [= <- _]. exact Hx.
Qed.

(** [lstrip] drops a prefix. *)
Lemma lstrip_suffix s : exists p, s = p ++ lstrip s.
Proof.
  induction s as [| x s (p & IH)]; simpl.
  - exists []. reflexivity.
  - destruct (isspace x).
    + exists (x :: p). simpl. f_equal. exact IH.
    + exists []. reflexivity.
Qed.

(** A stripped string that is not empty starts and ends with characters
    that are not whitespace. *)
Lemma strip_trimmed s c r :
  strip s = c :: r ->
  isspace c = false /\ isspace (last (c :: r) c) = false.
Proof.
  unfold strip, rstrip. intros H. split.
  - destruct (lstrip_suffix (rev (lstrip s))) as (p & Hp).
    apply (f_equal (@rev _)) in Hp.
    rewrite rev_involutive, rev_app_distr, H in Hp. simpl in Hp.
    apply (lstrip_head s c (r ++ rev p)). exact Hp.
  - apply (f_equal (@rev _)) in H. rewrite rev_involutive in H.
    destruct (rev (c :: r)) as [| x t] eqn:Hrev.
    + apply (f_equal (@List.length _)) in Hrev.
      rewrite length_rev in Hrev. discriminate.
    + pose proof (lstrip_head _ _ _ H) as Hx.
      apply (f_equal (@rev _)) in Hrev. rewrite rev_involutive in Hrev.
      rewrite Hrev. simpl. rewrite last_last. exact Hx.
Qed.

End StripFacts.

(* ================================================================= *)
(** ** [generate_video]: checks, order of the clips, failures *)

Module VideoMore.

Import Video Manifest FloatFacts FloatOrder VideoFacts.

Lemma iter_nonempty_truthy data item items :
  Py.iter data = Ok (item :: items) -> Py.truthy data = true.
Proof.
  destruct data as [| b | z | f | s | l | kv]; simpl; try discriminate.
  - destruct s; [discriminate | reflexivity].
  - destruct l; [discriminate | reflexivity].
  - destruct kv; [discriminate | reflexivity].
Qed.

Lemma iter_Ok_len data items :
  Py.iter data = Ok items -> exists n, Py.len data = Ok n.
Proof.
  destruct data; simpl; try discriminate; eauto.
Qed.

Section More.

Variable E : env.
Variables (output_dir final_video original_audio bg_path font_path : pystr).
Variables (fade_duration min_duration_for_fade : float).
Variables (font_size : Z) (text_color : pystr) (fps : Z).

Local Abbreviation process_item :=
  (process_item E bg_path font_path fade_duration min_duration_for_fade
                font_size text_color).
Local Abbreviation build_clips :=
  (build_clips E bg_path font_path fade_duration min_duration_for_fade
               font_size text_color).
Local Abbreviation collect_clips :=
  (collect_clips E output_dir original_audio bg_path font_path fade_duration
                 min_duration_for_fade font_size text_color fps).
Local Abbreviation generate_video :=
  (generate_video E output_dir final_video original_audio bg_path font_path
                  fade_duration min_duration_for_fade font_size text_color fps).

(** What a run that collected clips went through. *)
Lemma collect_clips_inv clips :
  collect_clips = Ok clips ->
  exists data items skipped,
    json_load E (transcriptions_path output_dir) = Ok data /\
    Py.iter data = Ok items /\
    build_clips items [] 0 = Ok (clips, skipped) /\
    clips <> [].
Proof.
  unfold Video.collect_clips. intros H.
  do 7 (apply bind_Ok in H as (? & _ & H)).
  apply bind_Ok in H as (data & Hdata & H).
  do 2 (apply bind_Ok in H as (? & _ & H)).
  apply bind_Ok in H as (items & Hitems & H).
  apply bind_Ok in H as ([cl sk] & Hloop & H).
  apply bind_Ok in H as (? & Hne & H).
  injection H as <-.
  exists data, items, sk. repeat split; auto.
  intros ->. discriminate Hne.
Qed.

(** The run after its checks, when they all pass. *)
Lemma collect_clips_checked :
  path_exists E (transcriptions_path output_dir) = true ->
  path_exists E bg_path = true ->
  path_exists E font_path = true ->
  path_exists E original_audio = true ->
  fltb fade_duration f0 = false -> 0 < font_size -> 0 < fps ->
  collect_clips
  = (data <- json_load E (transcriptions_path output_dir) ;;
     raise_if (negb (Py.truthy data)) no_transcription_data ;;;
     Py.len data ;;;
     items <- Py.iter data ;;
     r <- build_clips items [] 0 ;;
     let '(clips, skipped_clips) := r in
     raise_if (match clips with [] => true | _ => false end)
              (no_valid_clips skipped_clips) ;;;
     Ok clips).
Proof.
  intros H1 H2 H3 H4 Hfade Hsize Hfps. unfold Video.collect_clips.
  rewrite H1, H2, H3, H4, Hfade.
  replace (font_size <=? 0) with false by (symmetry; apply Z.leb_gt; lia).
  replace (fps <=? 0) with false by (symmetry; apply Z.leb_gt; lia).
  reflexivity.
Qed.

(** X1. When the manifest, the background image, the font or the audio file
    is missing, [generate_video] raises [FileNotFoundError] and writes
    nothing, whatever its other arguments are. *)
Theorem missing_input_raises :
  path_exists E (transcriptions_path output_dir)
  && path_exists E bg_path && path_exists E font_path
  && path_exists E original_audio = false ->
  exists e, generate_video = (Raise e, []) /\ exn_cls e = FileNotFoundError.
Proof.
  unfold Video.generate_video, Video.collect_clips. intros H.
  destruct (path_exists E (transcriptions_path output_dir));
    [| eexists; split; reflexivity].
  destruct (path_exists E bg_path); [| eexists; split; reflexivity].
  destruct (path_exists E font_path); [| eexists; split; reflexivity].
  destruct (path_exists E original_audio); [discriminate H |].
  eexists; split; reflexivity.
Qed.

(** X2. With the four files in place, a negative [fade_duration], a
    [font_size] of zero or less, or an [fps] of zero or less raises
    [ValueError] before the manifest is read, and nothing is written. *)
Theorem invalid_parameter_raises :
  path_exists E (transcriptions_path output_dir) = true ->
  path_exists E bg_path = true ->
  path_exists E font_path = true ->
  path_exists E original_audio = true ->
  fltb fade_duration f0 = true \/ font_size <= 0 \/ fps <= 0 ->
  exists e, generate_video = (Raise e, []) /\ exn_cls e = ValueError.
Proof.
  intros H1 H2 H3 H4 Hbad. unfold Video.generate_video, Video.collect_clips.
  rewrite H1, H2, H3, H4. cbn [negb raise_if bind].
  destruct (fltb fade_duration f0); [eexists; split; reflexivity |].
  cbn [raise_if bind].
  destruct (font_size <=? 0) eqn:Hs; [eexists; split; reflexivity |].
  cbn [raise_if bind].
  destruct (fps <=? 0) eqn:Hf; [eexists; split; reflexivity |].
  apply Z.leb_gt in Hs, Hf. destruct Hbad as [Hb | [Hb | Hb]];
    [discriminate | lia | lia].
Qed.

Lemma build_clips_filter items : forall clips0 sk0 clips sk,
  build_clips items clips0 sk0 = Ok (clips, sk) ->
  exists new,
    clips = clips0 ++ new /\
    Forall2 (fun item c => process_item item = Ok (Some c))
            (filter (fun item => match process_item item with
                                 | Ok (Some _) => true
                                 | _ => false
                                 end) items) new /\
    sk = (sk0 + List.length
                  (filter (fun item => match process_item item with
                                       | Ok None => true
                                       | _ => false
                                       end) items))%nat.
Proof.
  induction items as [| item rest IH]; intros clips0 sk0 clips sk H; simpl in *.
  - injection H as <- <-. exists []. rewrite app_nil_r, Nat.add_0_r.
    repeat split; constructor.
  - destruct (process_item item) as [[c |] | e] eqn:Hitem; simpl in H;
      [| | discriminate].
    + apply IH in H as (new & -> & Hall & ->).
      exists (c :: new). rewrite <- app_assoc.
      split; [reflexivity |]. split; [constructor; assumption | reflexivity].
    + apply IH in H as (new & -> & Hall & ->).
      exists new. split; [reflexivity |]. split; [assumption | simpl; lia].
Qed.

(** X3. The clips of a run are the clips of the records that were not
    skipped, in the order of the manifest; every record gave a clip or was
    counted as skipped. *)
Theorem clips_follow_manifest items clips skipped :
  build_clips items [] 0 = Ok (clips, skipped) ->
  Forall2 (fun item c => process_item item = Ok (Some c))
          (filter (fun item => match process_item item with
                               | Ok (Some _) => true
                               | _ => false
                               end) items) clips /\
  skipped = List.length
              (filter (fun item => match process_item item with
                                   | Ok None => true
                                   | _ => false
                                   end) items) /\
  (List.length clips + skipped = List.length items)%nat.
Proof.
  intros H.
  destruct (build_clips_filter _ _ _ _ _ H) as (new & -> & Hall & ->).
  destruct (build_clips_app E bg_path font_path fade_duration
              min_duration_for_fade font_size text_color _ _ _ _ _ H)
    as (new' & Heq & _ & Hlen).
  simpl in Heq. subst new'. simpl in *. repeat split; auto. lia.
Qed.

Lemma build_clips_raises pre item post e : forall clips0 sk0,
  Forall (fun it => exists r, process_item it = Ok r) pre ->
  process_item item = Raise e ->
  build_clips (pre ++ item :: post) clips0 sk0 = Raise e.
Proof.
  induction pre as [| it pre IH]; intros clips0 sk0 Hpre He; simpl.
  - rewrite He. reflexivity.
  - inversion Hpre as [| ? ? (r & Hr) Hrest]; subst. rewrite Hr. simpl.
    destruct r; apply IH; assumption.
Qed.

(** X4. An exception in the body of the loop ends the whole run: when a
    record raises (it is no object, its text is no string, its duration no
    number, or [moviepy] fails on it), [generate_video] raises that exception
    and writes no video, whatever clips the records before it gave. *)
Theorem bad_record_aborts data pre item post e :
  path_exists E (transcriptions_path output_dir) = true ->
  path_exists E bg_path = true ->
  path_exists E font_path = true ->
  path_exists E original_audio = true ->
  fltb fade_duration f0 = false -> 0 < font_size -> 0 < fps ->
  json_load E (transcriptions_path output_dir) = Ok data ->
  Py.iter data = Ok (pre ++ item :: post) ->
  Forall (fun it => exists r, process_item it = Ok r) pre ->
  process_item item = Raise e ->
  generate_video = (Raise e, []).
Proof.
  intros H1 H2 H3 H4 Hfade Hsize Hfps Hload Hiter Hpre He.
  unfold Video.generate_video.
  rewrite (collect_clips_checked H1 H2 H3 H4 Hfade Hsize Hfps), Hload.
  cbn [bind].
  assert (Ht : Py.truthy data = true).
  { destruct pre; simpl in Hiter; eapply iter_nonempty_truthy; exact Hiter. }
  destruct (iter_Ok_len _ _ Hiter) as (n & Hlen).
  rewrite Ht, Hlen, Hiter. cbn [negb raise_if bind].
  rewrite (build_clips_raises pre item post e [] 0 Hpre He). reflexivity.
Qed.

(** X5. A fade that is applied is above zero, at most [fade_duration] and at
    most a third of the duration of its clip, and its clip lasts longer than
    [min_duration_for_fade]. *)
Theorem applied_fade_bounds clips :
  collect_clips = Ok clips ->
  Forall (fun c =>
            txt_effects (comp_txt c) = [] \/
            exists f,
              txt_effects (comp_txt c) = [FadeIn (PFloat f); FadeOut (PFloat f)] /\
              fltb f0 f = true /\
              fleb f fade_duration = true /\
              fleb f (fdiv (comp_duration c) f3) = true /\
              fltb min_duration_for_fade (comp_duration c) = true) clips.
Proof.
  intros H. apply collect_clips_inv in H as (data & items & sk & _ & _ & H & _).
  apply (build_clips_app E bg_path font_path fade_duration
           min_duration_for_fade font_size text_color) in H
    as (new & -> & Hall & _).
  simpl. eapply Forall_impl; [| exact Hall].
  intros c (item & _ & text & ms & _ & _ & _ & _ & _ & _ & _ & Heff & _).
  cbv zeta in Heff. rewrite Heff. unfold fade_for.
  destruct (fltb min_duration_for_fade (comp_duration c)) eqn:Hlong;
    [| left; reflexivity].
  set (third := fdiv (comp_duration c) f3) in *.
  destruct (gt0 (PFloat (fmin fade_duration third))) eqn:Hpos;
    [| left; reflexivity].
  right. exists (fmin fade_duration third).
  split; [reflexivity |]. split; [exact Hpos |].
  assert (Hthird : is_nan third = false).
  { apply fdiv_f3_not_nan. apply (fltb_not_nan _ _ Hlong). }
  simpl in Hpos. unfold fmin in *.
  destruct (fltb third fade_duration) eqn:Hlt.
  - repeat split; auto using fltb_fleb, fleb_refl.
  - pose proof (proj2 (fltb_not_nan _ _ Hpos)) as Hfd.
    repeat split; auto using not_fltb_fleb, fleb_refl.
Qed.

(** X6. The caption of every clip is the text of its record without the
    whitespace around it: it is not empty, and neither starts nor ends with
    a whitespace character. *)
Theorem captions_trimmed clips :
  collect_clips = Ok clips ->
  Forall (fun c =>
            exists ch rest,
              txt_text (comp_txt c) = ch :: rest /\
              isspace ch = false /\
              isspace (last (ch :: rest) ch) = false) clips.
Proof.
  intros H. apply collect_clips_inv in H as (data & items & sk & _ & _ & H & _).
  apply (build_clips_app E bg_path font_path fade_duration
           min_duration_for_fade font_size text_color) in H
    as (new & -> & Hall & _).
  simpl. eapply Forall_impl; [| exact Hall].
  intros c (item & _ & text & ms & _ & Hs & Hne & _).
  rewrite <- Hs. destruct (strip text) as [| ch rest] eqn:Hstrip;
    [congruence |].
  exists ch, rest. split; [reflexivity |].
  apply (StripFacts.strip_trimmed text). exact Hstrip.
Qed.


End More.

Lemma missing_input_raises_witness :
  exists e,
    Samples.video (Samples.video_env_without (lit "bg.png") Samples.manifest) 24
    = (Raise e, []) /\
    exn_cls e = FileNotFoundError.
Proof.
  apply (missing_input_raises
           (Samples.video_env_without (lit "bg.png") Samples.manifest)
           (lit "up") (lit "out.mp4") (lit "quran.mp3") (lit "bg.png")
           (lit "font.otf") f0_8 f1 60 (lit "white") 24).
  reflexivity.
Defined.

Lemma invalid_parameter_raises_witness :
  exists e,
    Samples.video (Samples.video_env Samples.manifest) 0 = (Raise e, []) /\
    exn_cls e = ValueError.
Proof.
  apply (invalid_parameter_raises (Samples.video_env Samples.manifest)
           (lit "up") (lit "out.mp4") (lit "quran.mp3") (lit "bg.png")
           (lit "font.otf") f0_8 f1 60 (lit "white") 0);
    try reflexivity.
  right. right. lia.
Defined.

Lemma clips_follow_manifest_witness :
  exists items clips,
    Samples.manifest = JArray items /\
    build_clips (Samples.video_env Samples.manifest) (lit "bg.png")
                (lit "font.otf") f0_8 f1 60 (lit "white") items [] 0
    = Ok (clips, 2%nat) /\
    (List.length clips + 2 = List.length items)%nat.
Proof.
  do 2 eexists. split; [reflexivity |].
  match goal with
  | |- ?run = Ok (?c, _) /\ _ =>
      assert (H : run = Ok (c, 2%nat)) by reflexivity
  end.
  split; [exact H |].
  exact (proj2 (proj2 (clips_follow_manifest
                         (Samples.video_env Samples.manifest) (lit "bg.png")
                         (lit "font.otf") f0_8 f1 60 (lit "white")
                         _ _ _ H))).
Defined.

Lemma bad_record_aborts_witness :
  Samples.video (Samples.video_env Samples.broken_manifest) 24
  = (Raise (Py.no_attribute (JInt 5) "strip"), []).
Proof.
  refine (bad_record_aborts (Samples.video_env Samples.broken_manifest)
            (lit "up") (lit "out.mp4") (lit "quran.mp3") (lit "bg.png")
            (lit "font.otf") f0_8 f1 60 (lit "white") 24
            Samples.broken_manifest
            [Samples.transcript "up/chunk_0.wav" "alpha" 1500] _
            [Samples.transcript "up/chunk_2.wav" "gamma" 1200] _
            eq_refl eq_refl eq_refl eq_refl eq_refl eq_refl eq_refl
            eq_refl eq_refl _ eq_refl).
  constructor; [eexists; reflexivity | constructor].
Defined.

Lemma applied_fade_bounds_witness :
  exists clips,
    Samples.clips_of Samples.manifest = Ok clips /\
    Forall (fun c =>
              txt_effects (comp_txt c) = [] \/
              exists f,
                txt_effects (comp_txt c)
                = [FadeIn (PFloat f); FadeOut (PFloat f)] /\
                fltb f0 f = true /\
                fleb f f0_8 = true /\
                fleb f (fdiv (comp_duration c) f3) = true /\
                fltb f1 (comp_duration c) = true) clips.
Proof.
  eexists. split; [reflexivity |].
  apply (applied_fade_bounds (Samples.video_env Samples.manifest) (lit "up")
           (lit "quran.mp3") (lit "bg.png") (lit "font.otf") f0_8 f1 60
           (lit "white") 24).
  reflexivity.
Defined.

Lemma captions_trimmed_witness :
  exists clips,
    Samples.clips_of Samples.manifest = Ok clips /\
    Forall (fun c =>
              exists ch rest,
                txt_text (comp_txt c) = ch :: rest /\
                isspace ch = false /\
                isspace (last (ch :: rest) ch) = false) clips.
Proof.
  eexists. split; [reflexivity |].
  apply (captions_trimmed (Samples.video_env Samples.manifest) (lit "up")
           (lit "quran.mp3") (lit "bg.png") (lit "font.otf") f0_8 f1 60
           (lit "white") 24).
  reflexivity.
Defined.


End VideoMore.

(* ================================================================= *)
(** ** [transcribe_chunks]: what is sent, what is recorded *)

Module TranscribeMore.

Import Transcribe Manifest OrderFacts TranscribeFacts.

Lemma filter_perm (f : pystr -> bool) l l' :
  Permutation l l' -> Permutation (filter f l) (filter f l').
Proof.
  induction 1 as [| x l l' _ IH | x y l | l l' l'' _ IH1 _ IH2]; simpl.
  - constructor.
  - destruct (f x); [constructor |]; exact IH.
  - destruct (f x), (f y); try reflexivity. apply perm_swap.
  - etransitivity; eassumption.
Qed.

Lemma le_antisym a b : PyStr.le a b -> PyStr.le b a -> a = b.
Proof.
  unfold PyStr.le, PyStr.leb. rewrite !negb_true_iff. intros Hba Hab.
  apply ltb_total; assumption.
Qed.

(** A list has one sorted arrangement. *)
Lemma sorted_unique l1 : forall l2,
  StronglySorted PyStr.le l1 -> StronglySorted PyStr.le l2 ->
  Permutation l1 l2 -> l1 = l2.
Proof.
  induction l1 as [| x l1 IH]; intros l2 H1 H2 Hp.
  - apply Permutation_nil in Hp. congruence.
  - destruct l2 as [| y l2].
    + apply Permutation_sym, Permutation_nil in Hp. discriminate.
    + inversion H1 as [| ? ? Hs1 Hx]; subst.
      inversion H2 as [| ? ? Hs2 Hy]; subst.
      rewrite Forall_forall in Hx, Hy.
      assert (x = y) as ->.
      { assert (Hxy : PyStr.le x y).
        { destruct (Permutation_in y (Permutation_sym Hp) (or_introl eq_refl))
            as [-> | Hin]; [apply leb_refl | auto]. }
        assert (Hyx : PyStr.le y x).
        { destruct (Permutation_in x Hp (or_introl eq_refl))
            as [-> | Hin]; [apply leb_refl | auto]. }
        apply le_antisym; assumption. }
      f_equal. apply IH; auto.
      apply Permutation_cons_inv in Hp. exact Hp.
Qed.

(** X8. The files are processed in an order that depends on their names
    alone: however [os.listdir] enumerates the directory, the list of the
    .wav files to process is the same. *)
Theorem listing_order_irrelevant names names' :
  Permutation names names' -> wav_files names = wav_files names'.
Proof.
  intros Hp. unfold wav_files.
  apply sorted_unique; try apply sorted_sorted.
  rewrite <- !sorted_perm. apply filter_perm. exact Hp.
Qed.

Lemma listing_order_irrelevant_witness :
  wav_files Samples.three_chunks = wav_files (rev Samples.three_chunks).
Proof.
  apply listing_order_irrelevant. apply Permutation_rev.
Defined.

Section More.

Variable E : env.
Variables (api_url chunks_dir output_json : pystr) (timeout : Z).

Local Abbreviation request := (request E api_url timeout).
Local Abbreviation transcribe_file := (transcribe_file E api_url timeout).
Local Abbreviation transcribe_chunks :=
  (transcribe_chunks E api_url chunks_dir output_json timeout).
Local Abbreviation recorded := (recorded E api_url chunks_dir timeout).
Local Abbreviation path := (path_join chunks_dir).

(** X9. A request that fails with an error of [requests] other than a
    timeout (no connection, or a response whose status [raise_for_status]
    rejects) gives, for a segment that can be measured, the record with the
    empty text, the measured duration and the message of the error. *)
Theorem request_error_is_recorded p e d :
  post E api_url p timeout = Raise e \/
  (exists response, post E api_url p timeout = Ok response /\
                    raise_for_status response = Some e) ->
  is_RequestException e = true ->
  is_Timeout e = false ->
  duration_seconds E p = Ok d ->
  transcribe_file p
  = Ok (JObject [(lit "file", JString p); (lit "text", JString []);
                 (lit "duration_ms", JFloat (SFmul prec emax d f1000));
                 (lit "error", JString (exn_str e))]).
Proof.
  intros Hfail Hre Ht Hd.
  assert (Hreq : request p = Raise e).
  { unfold Transcribe.request.
    destruct Hfail as [-> | (response & -> & Hs)]; simpl;
      [| rewrite Hs]; reflexivity. }
  unfold Transcribe.transcribe_file, duration_ms.
  rewrite Hreq, Ht, Hre, Hd. reflexivity.
Qed.

(** X10. An accepted response whose body is an object gives the record of
    the file with the text under "text", or the empty text when the body
    has no such key, the measured duration, and no "error". *)
Theorem answer_is_recorded p response kv text d :
  post E api_url p timeout = Ok response ->
  raise_for_status response = None ->
  response_json response = Ok (JObject kv) ->
  match Py.dict_lookup kv (lit "text") with
  | Some v => v
  | None => JString []
  end = JString text ->
  duration_seconds E p = Ok d ->
  exists r,
    transcribe_file p = Ok r /\
    field r "file" = Some (JString p) /\
    field r "text" = Some (JString text) /\
    field r "duration_ms" = Some (JFloat (SFmul prec emax d f1000)) /\
    field r "error" = None.
Proof.
  intros Hpost Hs Hbody Htext Hd.
  unfold Transcribe.transcribe_file, Transcribe.request, duration_ms.
  rewrite Hpost. cbn [bind]. rewrite Hs, Hbody. cbn [bind Py.get].
  rewrite Htext. cbn [bind log_transcribed]. rewrite Hd. cbn [bind].
  eexists. repeat split.
Qed.

(** X11. The measurement in the handlers is not protected: when a request
    fails with an error of [requests] and the segment cannot be measured,
    the exception of the measurement leaves the loop; the run raises it,
    sends nothing more and writes no manifest. *)
Theorem unmeasurable_segment_aborts names pre before file post e e' :
  path_exists E chunks_dir = true ->
  listdir E chunks_dir = Ok names ->
  wav_files names = pre ++ file :: post ->
  recorded pre before ->
  request (path file) = Raise e ->
  is_RequestException e = true ->
  duration_seconds E (path file) = Raise e' ->
  transcribe_file (path file) = Raise e' /\
  transcribe_chunks = (Raise e', posts api_url chunks_dir (pre ++ [file])) /\
  manifests (snd transcribe_chunks) = [].
Proof.
  intros Hdir Hls Hfiles Hpre He Hre Hd.
  assert (Hfile : transcribe_file (path file) = Raise e').
  { unfold Transcribe.transcribe_file, duration_ms. rewrite He, Hre, Hd.
    destruct (is_Timeout e); reflexivity. }
  split; [exact Hfile |].
  rewrite (transcribe_chunks_raises E api_url chunks_dir output_json timeout
             names pre before file post e' Hdir Hls Hfiles Hpre Hfile).
  split; [reflexivity |]. apply manifests_posts.
Qed.

(** X12. When every file was recorded and the manifest cannot be written,
    the run raises the exception of the write after all the requests: the
    records are not returned. *)
Theorem write_failure_raises names data e :
  path_exists E chunks_dir = true ->
  listdir E chunks_dir = Ok names ->
  wav_files names <> [] ->
  recorded (wav_files names) data ->
  write_json E output_json (JArray data) = Some e ->
  transcribe_chunks
  = (Raise e, posts api_url chunks_dir (wav_files names)
              ++ [WriteFailed output_json]).
Proof.
  intros Hdir Hls Hne Hrec Hw. unfold Transcribe.transcribe_chunks.
  rewrite Hdir, Hls. cbn [negb].
  destruct (wav_files names) as [| f files] eqn:Hfiles; [congruence |].
  cbv beta iota.
  rewrite (transcribe_loop_recorded E api_url chunks_dir timeout _ _ Hrec).
  cbn [app]. rewrite Hw. reflexivity.
Qed.

(** What the record of a file looks like. *)
Lemma transcribe_file_shape p r :
  transcribe_file p = Ok r ->
  field r "file" = Some (JString p) /\
  (exists d, field r "duration_ms" = Some (JFloat d)) /\
  (field r "error" = None \/ field r "text" = Some (JString [])).
Proof.
  unfold Transcribe.transcribe_file.
  destruct (request p) as [r0 | e] eqn:Hreq.
  - intros [= <-]. apply request_Ok in Hreq as (text & d & ->).
    repeat split; [eexists; reflexivity | left; reflexivity].
  - destruct (is_Timeout e); [| destruct (is_RequestException e)];
      try discriminate;
      (destruct (duration_ms E p) as [d |]; simpl; [| discriminate]);
      intros [= <-];
      (repeat split; [eexists; reflexivity | right; reflexivity]).
Qed.

(** A run that returns recorded every .wav file of the directory. *)
Lemma returned_recorded data :
  fst transcribe_chunks = Ok data ->
  exists names,
    listdir E chunks_dir = Ok names /\ recorded (wav_files names) data.
Proof.
  unfold Transcribe.transcribe_chunks.
  destruct (path_exists E chunks_dir); cbn [negb]; [| discriminate].
  destruct (listdir E chunks_dir) as [names | e] eqn:Hls; [| discriminate].
  destruct (wav_files names) as [| f files] eqn:Hfiles.
  - intros [= <-]. exists names. rewrite Hfiles. split; [reflexivity |].
    constructor.
  - cbv beta iota.
    destruct (transcribe_loop_cases E api_url chunks_dir timeout
                (f :: files) [] [])
      as [(recs & Hrec & Heq) | (pre & recs & g & e & post & _ & _ & _ & Heq)];
      rewrite Heq; [| discriminate].
    cbn [app]. destruct (write_json E output_json (JArray recs));
      [discriminate |].
    intros [= <-]. exists names. rewrite Hfiles. split; [reflexivity | exact Hrec].
Qed.

(** X13. Whatever happened to the requests, a run that returns gives one
    record per .wav file, in the sorted order of the names; each record
    names its file and carries a duration, and a record with an "error"
    has the empty text. *)
Theorem returned_records names data :
  listdir E chunks_dir = Ok names ->
  fst transcribe_chunks = Ok data ->
  Forall2 (fun file r =>
             field r "file" = Some (JString (path file)) /\
             (exists d, field r "duration_ms" = Some (JFloat d)) /\
             (field r "error" = None \/ field r "text" = Some (JString [])))
          (wav_files names) data.
Proof.
  intros Hls Hret.
  destruct (returned_recorded data Hret) as (names' & Hls' & Hrec).
  assert (names' = names) as -> by congruence.
  unfold Transcribe.recorded in Hrec.
  eapply Forall2_impl; [| exact Hrec].
  intros file r Hr. apply transcribe_file_shape. exact Hr.
Qed.

Lemma firstn_incl {A} k (l : list A) x : In x (firstn k l) -> In x l.
Proof.
  intros H. rewrite <- (firstn_skipn k l). apply in_or_app. left. exact H.
Qed.

(** X14. A request is sent for .wav files of the directory only: every file
    posted is a name of the listing that ends in ".wav", joined to the
    directory. *)
Theorem only_wav_files_requested names :
  listdir E chunks_dir = Ok names ->
  Forall (fun p => exists f,
              In f names /\ endswith f (lit ".wav") = true /\ p = path f)
         (posted (snd transcribe_chunks)).
Proof.
  intros Hls.
  destruct (requests_in_sorted_order E api_url chunks_dir output_json timeout
              names Hls) as (k & Hk).
  rewrite Hk. apply Forall_forall. intros p Hp.
  apply in_map_iff in Hp as (f & <- & Hf).
  apply firstn_incl in Hf. unfold wav_files in Hf.
  apply (Permutation_in f (Permutation_sym (sorted_perm _))) in Hf.
  apply filter_In in Hf as [Hin Hwav].
  exists f. auto.
Qed.

End More.

Lemma request_error_is_recorded_witness :
  transcribe_file
    (Samples.transcribe_env Samples.three_chunks
       (fun _ => Raise (Exn RequestException (lit "Connection refused"))))
    (lit "http://stt/transcribe") 60 (lit "up/chunk_0.wav")
  = Ok (JObject [(lit "file", JString (lit "up/chunk_0.wav"));
                 (lit "text", JString []);
                 (lit "duration_ms",
                  JFloat (SFmul prec emax
                            (S754_finite false 6755399441055744 (-52)) f1000));
                 (lit "error", JString (lit "Connection refused"))]).
Proof.
  apply (request_error_is_recorded
           (Samples.transcribe_env Samples.three_chunks
              (fun _ => Raise (Exn RequestException (lit "Connection refused"))))
           (lit "http://stt/transcribe") 60 (lit "up/chunk_0.wav")
           (Exn RequestException (lit "Connection refused"))
           (S754_finite false 6755399441055744 (-52)));
    try reflexivity.
  left. reflexivity.
Defined.

Lemma answer_is_recorded_witness :
  exists r,
    transcribe_file
      (Samples.transcribe_env Samples.three_chunks
                              (fun _ => Samples.answer "alpha"))
      (lit "http://stt/transcribe") 60 (lit "up/chunk_0.wav") = Ok r /\
    field r "file" = Some (JString (lit "up/chunk_0.wav")) /\
    field r "text" = Some (JString (lit "alpha")) /\
    field r "duration_ms"
    = Some (JFloat (SFmul prec emax
                      (S754_finite false 6755399441055744 (-52)) f1000)) /\
    field r "error" = None.
Proof.
  refine (answer_is_recorded
            (Samples.transcribe_env Samples.three_chunks
                                    (fun _ => Samples.answer "alpha"))
            (lit "http://stt/transcribe") 60 (lit "up/chunk_0.wav")
            _ _ (lit "alpha") _ eq_refl eq_refl eq_refl eq_refl eq_refl).
Defined.

Lemma unmeasurable_segment_aborts_witness :
  transcribe_chunks
    (Samples.transcribe_world Samples.three_chunks Samples.timeout_on_1
                              Samples.unreadable_1 (fun _ _ => None))
    (lit "http://stt/transcribe") (lit "up") (lit "up/transcriptions.json") 60
  = (Raise (Exn RuntimeError (lit "Decoding failed")),
     posts (lit "http://stt/transcribe") (lit "up")
           ([lit "chunk_0.wav"] ++ [lit "chunk_1.wav"])).
Proof.
  refine (proj1 (proj2 (unmeasurable_segment_aborts
                          (Samples.transcribe_world Samples.three_chunks
                             Samples.timeout_on_1 Samples.unreadable_1
                             (fun _ _ => None))
                          (lit "http://stt/transcribe") (lit "up")
                          (lit "up/transcriptions.json") 60
                          Samples.three_chunks [lit "chunk_0.wav"] _
                          (lit "chunk_1.wav") [lit "chunk_2.wav"]
                          (Exn Timeout (lit "Read timed out."))
                          (Exn RuntimeError (lit "Decoding failed"))
                          eq_refl eq_refl eq_refl _ eq_refl eq_refl eq_refl))).
  constructor; [reflexivity | constructor].
Defined.

Lemma write_failure_raises_witness :
  exists t,
    transcribe_chunks
      (Samples.transcribe_world Samples.three_chunks Samples.timeout_on_1
         (fun _ => Ok (S754_finite false 6755399441055744 (-52)))
         (fun _ _ => Some (Exn OSError (lit "No space left on device"))))
      (lit "http://stt/transcribe") (lit "up") (lit "up/transcriptions.json")
      60
    = (Raise (Exn OSError (lit "No space left on device")), t) /\
    posted t = [lit "up/chunk_0.wav"; lit "up/chunk_1.wav";
                lit "up/chunk_2.wav"] /\
    manifests t = [].
Proof.
  eexists. split.
  - refine (write_failure_raises
              (Samples.transcribe_world Samples.three_chunks
                 Samples.timeout_on_1
                 (fun _ => Ok (S754_finite false 6755399441055744 (-52)))
                 (fun _ _ => Some (Exn OSError (lit "No space left on device"))))
              (lit "http://stt/transcribe") (lit "up")
              (lit "up/transcriptions.json") 60 Samples.three_chunks _ _
              eq_refl eq_refl _ _ eq_refl).
    + discriminate.
    + repeat (constructor; [reflexivity |]). constructor.
  - split; reflexivity.
Defined.

Lemma returned_records_witness :
  exists data,
    fst (Samples.transcribe Samples.three_chunks Samples.timeout_on_1)
    = Ok data /\
    Forall2 (fun file r =>
               field r "file" = Some (JString (path_join (lit "up") file)) /\
               (exists d, field r "duration_ms" = Some (JFloat d)) /\
               (field r "error" = None \/ field r "text" = Some (JString [])))
            (wav_files Samples.three_chunks) data.
Proof.
  eexists. split; [reflexivity |].
  apply (returned_records
           (Samples.transcribe_env Samples.three_chunks Samples.timeout_on_1)
           (lit "http://stt/transcribe") (lit "up")
           (lit "up/transcriptions.json") 60 Samples.three_chunks);
    reflexivity.
Defined.

Lemma only_wav_files_requested_witness :
  Forall (fun p => exists f,
              In f Samples.three_chunks /\
              endswith f (lit ".wav") = true /\
              p = path_join (lit "up") f)
         (posted (snd (Samples.transcribe Samples.three_chunks
                                          Samples.timeout_on_1))).
Proof.
  apply (only_wav_files_requested
           (Samples.transcribe_env Samples.three_chunks Samples.timeout_on_1)
           (lit "http://stt/transcribe") (lit "up")
           (lit "up/transcriptions.json") 60 Samples.three_chunks).
  reflexivity.
Defined.

End TranscribeMore.

(* ================================================================= *)
(** ** [split_audio]: checks and failures *)

Module SplitMore.

Import Transcribe OrderFacts Split SplitFacts.

(** Up to ten chunk names are in the order of [sorted]. *)
Lemma chunk_names_sorted N :
  (N <= 10)%nat -> StronglySorted PyStr.le (map chunk_name (seq 0 N)).
Proof.
  intros HN.
  do 11 (destruct N as [| N]; [repeat constructor |]). lia.
Qed.

(** X15. Up to ten segments, the order in which [transcribe_chunks] takes
    the files [split_audio] exported is the order of their indices, however
    the directory lists them and whatever other files it holds. *)
Theorem index_order_up_to_ten N names :
  (N <= 10)%nat ->
  Permutation (filter (fun f => endswith f (lit ".wav")) names)
              (map chunk_name (seq 0 N)) ->
  wav_files names = map chunk_name (seq 0 N).
Proof.
  intros HN Hp. unfold wav_files.
  apply TranscribeMore.sorted_unique.
  - apply sorted_sorted.
  - apply chunk_names_sorted. exact HN.
  - rewrite <- sorted_perm. exact Hp.
Qed.

Lemma index_order_up_to_ten_witness :
  wav_files (lit "chunks.json" :: rev (map chunk_name (seq 0 7)))
  = map chunk_name (seq 0 7).
Proof.
  apply index_order_up_to_ten; [lia |].
  simpl filter. apply Permutation_sym, Permutation_rev.
Defined.

Section More.

Variable E : env.
Variables (audio_path output_dir : pystr).
Variables (min_silence_len silence_thresh_offset keep_silence : Z).
Variable audio_format : pystr.

Local Abbreviation export_loop := (export_loop E output_dir).
Local Abbreviation split_audio :=
  (split_audio E audio_path output_dir min_silence_len silence_thresh_offset
               keep_silence audio_format).
Local Abbreviation path := (path_join output_dir).

(** X16. A missing audio file raises [FileNotFoundError], and, the file in
    place, a [min_silence_len] or a [silence_thresh_offset] of zero or less,
    or a negative [keep_silence], raises [ValueError]; in both cases before
    the output directory is made. *)
Theorem split_checks_come_first :
  (path_exists E audio_path = false ->
   split_audio = (Raise (audio_not_found audio_path), [])) /\
  (path_exists E audio_path = true ->
   min_silence_len <= 0 \/ silence_thresh_offset <= 0 \/ keep_silence < 0 ->
   split_audio = (Raise invalid_silence_parameters, [])) /\
  exn_cls (audio_not_found audio_path) = FileNotFoundError /\
  exn_cls invalid_silence_parameters = ValueError.
Proof.
  unfold Split.split_audio. repeat split.
  - intros ->. reflexivity.
  - intros -> Hbad. cbn [negb].
    replace ((min_silence_len <=? 0) || (silence_thresh_offset <=? 0)
             || (keep_silence <? 0)) with true; [reflexivity |].
    symmetry. rewrite !orb_true_iff, !Z.leb_le, Z.ltb_lt. tauto.
Qed.

(** An export loop that raises exported the chunks before the failing one,
    and failed on the next. *)
Lemma export_loop_Raise chunks : forall i metadata trace e trace',
  export_loop chunks i metadata trace = (Raise e, trace') ->
  exists k, (k < List.length chunks)%nat /\
            trace' = trace ++ exports output_dir i (firstn k chunks)
                     ++ [WriteFailed (path (chunk_name (i + k)))].
Proof.
  induction chunks as [| chunk rest IH]; intros i metadata trace e trace';
    simpl; [discriminate |].
  destruct (export E chunk (path (chunk_name i))).
  - intros [= <- <-]. exists 0%nat. simpl. rewrite Nat.add_0_r.
    split; [lia | reflexivity].
  - intros H. apply IH in H as (k & Hk & ->).
    exists (S k). split; [lia |]. rewrite <- app_assoc.
    replace (i + S k)%nat with (S i + k)%nat by lia. reflexivity.
Qed.

Lemma manifests_exports i chunks :
  manifests (exports output_dir i chunks) = [].
Proof.
  unfold exports. induction (indexed i chunks); simpl; auto.
Qed.

Lemma length_firstn_le {A} k (l : list A) :
  (k < List.length l)%nat -> List.length (firstn k l) = k.
Proof. intros H. rewrite length_firstn. lia. Qed.

Lemma touched_app t1 t2 : touched (t1 ++ t2) = touched t1 ++ touched t2.
Proof. apply flat_map_app. Qed.

Lemma touched_exports chunks : forall i,
  touched (exports output_dir i chunks)
  = map (fun k => path (chunk_name k)) (seq i (List.length chunks)).
Proof.
  induction chunks as [| chunk rest IH]; intros i; [reflexivity |].
  cbn. f_equal. apply IH.
Qed.

(** X17. A run that raises has completed no manifest.  The segment files it
    exported in full are [chunk_0.wav], ..., [chunk_(k-1).wav] for some [k],
    and at most one more file was opened and may be left partial: the
    segment [chunk_k.wav] whose export raised, or the manifest [chunks.json]
    whose write raised. *)
Theorem failed_split_leaves_no_manifest e :
  fst split_audio = Raise e ->
  manifests (snd split_audio) = [] /\
  exists k,
    written (snd split_audio)
    = map (fun i => path (chunk_name i)) (seq 0 k) /\
    (touched (snd split_audio) = written (snd split_audio) \/
     touched (snd split_audio)
     = written (snd split_audio) ++ [path (chunk_name k)] \/
     touched (snd split_audio)
     = written (snd split_audio) ++ [chunks_json_path output_dir]).
Proof.
  unfold Split.split_audio.
  destruct (path_exists E audio_path); cbn [negb];
    [| intros _; split; [reflexivity | exists 0%nat; split; [| left]; reflexivity]].
  destruct ((min_silence_len <=? 0) || (silence_thresh_offset <=? 0)
            || (keep_silence <? 0));
    [intros _; split; [reflexivity | exists 0%nat; split; [| left]; reflexivity] |].
  destruct (makedirs E output_dir);
    [intros _; split; [reflexivity | exists 0%nat; split; [| left]; reflexivity] |].
  destruct (detect E audio_path min_silence_len silence_thresh_offset
                   keep_silence audio_format) as [[| chunk rest] | e0];
    [discriminate | |
     intros _; split; [reflexivity | exists 0%nat; split; [| left]; reflexivity]].
  destruct (export_loop (chunk :: rest) 0 [] [MakeDirs output_dir])
    as [[md | e1] tr] eqn:Hloop.
  - apply export_loop_Ok in Hloop as [-> ->].
    destruct (write_json E _ _); [| discriminate].
    intros _. cbn [snd]. split.
    + rewrite !TranscribeFacts.manifests_app, manifests_exports. reflexivity.
    + exists (List.length (chunk :: rest)).
      rewrite !written_app, !touched_app, written_exports, touched_exports.
      simpl. rewrite !app_nil_r. split; [reflexivity |].
      right. right. reflexivity.
  - apply export_loop_Raise in Hloop as (k & Hk & ->).
    intros _. cbn [snd]. split.
    + rewrite !TranscribeFacts.manifests_app, manifests_exports. reflexivity.
    + exists k.
      rewrite !written_app, !touched_app, written_exports, touched_exports.
      rewrite (length_firstn_le _ _ Hk). simpl. rewrite !app_nil_r.
      split; [reflexivity |]. right. left. reflexivity.
Qed.

End More.

Lemma split_checks_come_first_witness :
  Split.split_audio (Samples.split_world false false Samples.two_segments)
                    (lit "quran.mp3") (lit "up") 100 16 25 (lit "mp3")
  = (Raise (audio_not_found (lit "quran.mp3")), []) /\
  Split.split_audio (Samples.split_world true false Samples.two_segments)
                    (lit "quran.mp3") (lit "up") 0 16 25 (lit "mp3")
  = (Raise invalid_silence_parameters, []).
Proof.
  split.
  - refine (proj1 (split_checks_come_first
                     (Samples.split_world false false Samples.two_segments)
                     (lit "quran.mp3") (lit "up") 100 16 25 (lit "mp3"))
                  eq_refl).
  - refine (proj1 (proj2 (split_checks_come_first
                            (Samples.split_world true false
                                                 Samples.two_segments)
                            (lit "quran.mp3") (lit "up") 0 16 25 (lit "mp3")))
                  eq_refl _).
    left. lia.
Defined.

Lemma failed_split_leaves_no_manifest_witness :
  fst (Samples.split_failing Samples.two_segments)
  = Raise (Exn OSError (lit "No space left on device")) /\
  touched (snd (Samples.split_failing Samples.two_segments))
  = [lit "up/chunk_0.wav"; lit "up/chunk_1.wav"] /\
  manifests (snd (Samples.split_failing Samples.two_segments)) = [] /\
  exists k,
    written (snd (Samples.split_failing Samples.two_segments))
    = map (fun i => path_join (lit "up") (chunk_name i)) (seq 0 k) /\
    (touched (snd (Samples.split_failing Samples.two_segments))
     = written (snd (Samples.split_failing Samples.two_segments)) \/
     touched (snd (Samples.split_failing Samples.two_segments))
     = written (snd (Samples.split_failing Samples.two_segments))
       ++ [path_join (lit "up") (chunk_name k)] \/
     touched (snd (Samples.split_failing Samples.two_segments))
     = written (snd (Samples.split_failing Samples.two_segments))
       ++ [chunks_json_path (lit "up")]).
Proof.
  split; [reflexivity |]. split; [reflexivity |].
  apply (failed_split_leaves_no_manifest
           (Samples.split_world true true Samples.two_segments)
           (lit "quran.mp3") (lit "up") 100 16 25 (lit "mp3")
           (Exn OSError (lit "No space left on device"))).
  reflexivity.
Defined.

End SplitMore.

(* ================================================================= *)
(** ** [process_full_pipeline]: what the caller sees *)

Module PipelineMore.

Import Pipeline.

Section More.

Variable E : env.
Variables (audio_path output_video output_dir : pystr).
Variable api_url : option pystr.
Variables (bg_path font_path : pystr).

Local Abbreviation process_full_pipeline :=
  (process_full_pipeline E audio_path output_video output_dir api_url
                         bg_path font_path).

(** X18. The caller only ever gets a result whose status is "success", with
    the audio path, the directory, the two counts and the path of the
    video; when the pipeline raises, the dict it leaves has the status
    "failed", the message of the exception, and no "video_path". *)
Theorem returned_status_is_success :
  (forall res,
      outcome process_full_pipeline = Ok res ->
      res = results process_full_pipeline /\
      Py.dict_lookup res (lit "status") = Some (JString (lit "success")) /\
      Py.dict_lookup res (lit "audio_path") = Some (JString audio_path) /\
      Py.dict_lookup res (lit "chunks_dir") = Some (JString output_dir) /\
      Py.dict_lookup res (lit "video_path") = Some (JString output_video) /\
      (exists n, Py.dict_lookup res (lit "chunks_count") = Some (JInt n)) /\
      (exists n, Py.dict_lookup res (lit "transcriptions_count")
                 = Some (JInt n))) /\
  (forall e,
      outcome process_full_pipeline = Raise e ->
      Py.dict_lookup (results process_full_pipeline) (lit "status")
      = Some (JString (lit "failed")) /\
      Py.dict_lookup (results process_full_pipeline) (lit "error")
      = Some (JString (exn_str e)) /\
      Py.dict_lookup (results process_full_pipeline) (lit "video_path")
      = None).
Proof.
  unfold Pipeline.process_full_pipeline.
  destruct (step_split E audio_path output_dir) as [[chunks | e1] t1];
    [| split; [discriminate | intros e [= <-]; repeat split]].
  assert (Hcount :
            exists r2 t2,
              match provided api_url with
              | Some url =>
                  match step_transcribe E output_dir url with
                  | (Raise e, t2) => (Raise e, t2)
                  | (Ok transcriptions, t2) => (Ok (len transcriptions), t2)
                  end
              | None => (Ok (JInt 0), [])
              end = (r2, t2) /\
              forall c, r2 = Ok c -> exists n, c = JInt n).
  { destruct (provided api_url) as [url |].
    - destruct (step_transcribe E output_dir url) as [[tr | e2] t2];
        do 2 eexists; (split; [reflexivity |]); intros c [= <-].
      unfold len. eauto.
    - do 2 eexists. split; [reflexivity |]. intros c [= <-]. eauto. }
  destruct Hcount as (r2 & t2 & -> & Hn).
  destruct r2 as [count | e2];
    [| split; [discriminate | intros e [= <-]; repeat split]].
  destruct (Hn count eq_refl) as (n & ->).
  unfold step_video, Video.generate_video.
  destruct (Video.collect_clips _ _ _ _ _ _ _ _ _ _) as [clips | e3];
    [| split; [discriminate | intros e [= <-]; repeat split]].
  destruct (Video.concatenate _ _) as [e4 |];
    [split; [discriminate | intros e [= <-]; repeat split] |].
  destruct (Video.open_audio _ _) as [e5 |];
    [split; [discriminate | intros e [= <-]; repeat split] |].
  destruct (Video.write_videofile _ _ _ _ _) as [e6 |];
    [split; [discriminate | intros e [= <-]; repeat split] |].
  cbv zeta.
  destruct (Video.close _) as [e7 |];
    [split; [discriminate | intros e [= <-]; repeat split] |].
  split; [| discriminate].
  intros res [= <-]. unfold len.
  repeat split; eexists; reflexivity.
Qed.

Lemma export_loop_local chunks : forall i metadata t,
  Forall (Split.local output_dir) t ->
  Forall (Split.local output_dir)
         (snd (Split.export_loop (split_env E) output_dir chunks i metadata t)).
Proof.
  induction chunks as [| chunk rest IH]; intros i metadata t Ht; simpl;
    [exact Ht |].
  destruct (Split.export (split_env E) chunk _).
  - apply Forall_app. split; [exact Ht |]. constructor; [exact I | constructor].
  - apply IH. apply Forall_app. split; [exact Ht |].
    constructor; [exact I | constructor].
Qed.

(** The first stage sends no request and writes no manifest but its own. *)
Lemma split_audio_local :
  Forall (Split.local output_dir) (snd (step_split E audio_path output_dir)).
Proof.
  unfold step_split, Split.split_audio.
  destruct (Split.path_exists _ _); cbn [negb]; [| constructor].
  destruct ((100 <=? 0) || (16 <=? 0) || (25 <? 0)); [constructor |].
  destruct (Split.makedirs _ _); [constructor |].
  assert (H0 : Forall (Split.local output_dir) [MakeDirs output_dir])
    by (constructor; [exact I | constructor]).
  destruct (Split.detect _ _ _ _ _ _) as [[| chunk rest] | e];
    try exact H0.
  pose proof (export_loop_local (chunk :: rest) 0 [] _ H0) as Hloop.
  destruct (Split.export_loop _ _ _ _ _ _) as [[md | e] t]; simpl in Hloop;
    [| exact Hloop].
  destruct (Split.write_json _ _ _); cbn [snd];
    apply Forall_app; (split; [exact Hloop |]);
    (constructor; [| constructor]); [exact I | reflexivity].
Qed.

Lemma generate_video_local :
  Forall (Split.local output_dir)
         (snd (step_video E audio_path output_video output_dir bg_path
                          font_path)).
Proof.
  unfold step_video, Video.generate_video.
  destruct (Video.collect_clips _ _ _ _ _ _ _ _ _ _); [| constructor].
  destruct (Video.concatenate _ _); [constructor |].
  destruct (Video.open_audio _ _); [constructor |].
  destruct (Video.write_videofile _ _ _ _ _);
    [constructor; [exact I | constructor] |].
  cbv zeta. destruct (Video.close _); constructor; try exact I; constructor.
Qed.

Lemma local_trace t :
  Forall (Split.local output_dir) t ->
  Transcribe.posted t = [] /\
  forall p d, In (WriteJson p d) t ->
              p = Split.chunks_json_path output_dir.
Proof.
  induction 1 as [| ev t Hev _ [IHp IHw]]; [split; [reflexivity | intros ? ? []] |].
  split.
  - destruct ev; simpl in *; auto. contradiction.
  - intros p d [-> | Hin]; [exact Hev | eauto].
Qed.

(** X19. Without an endpoint ([api_url] is [None] or the empty string), the
    pipeline sends no request and writes no manifest of transcriptions: the
    only manifest it may write is [chunks.json], and the video is made from
    whatever [transcriptions.json] the directory already holds. *)
Theorem no_endpoint_no_request :
  provided api_url = None ->
  Transcribe.posted (trace process_full_pipeline) = [] /\
  forall p d, In (WriteJson p d) (trace process_full_pipeline) ->
              p = Split.chunks_json_path output_dir.
Proof.
  intros Hnone. apply local_trace.
  unfold Pipeline.process_full_pipeline. rewrite Hnone.
  pose proof split_audio_local as H1.
  pose proof generate_video_local as H3.
  destruct (step_split E audio_path output_dir) as [[chunks | e1] t1];
    simpl in H1; [| exact H1].
  destruct (step_video E audio_path output_video output_dir bg_path font_path)
    as [[p | e3] t3]; simpl in H3; simpl;
    apply Forall_app; split; assumption.
Qed.

End More.

Lemma returned_status_is_success_witness :
  exists res,
    outcome (Samples.pipeline (Some (lit "http://stt/transcribe"))
                              Samples.manifest) = Ok res /\
    Py.dict_lookup res (lit "status") = Some (JString (lit "success")) /\
    Py.dict_lookup
      (results (Samples.pipeline (Some (lit "http://stt/transcribe"))
                                 Samples.silent_manifest))
      (lit "status") = Some (JString (lit "failed")).
Proof.
  pose proof (returned_status_is_success
                (Env (Samples.split_env Samples.two_segments)
                     (Samples.transcribe_env Samples.three_chunks
                                             Samples.timeout_on_1)
                     (Samples.video_env Samples.manifest))
                (lit "quran.mp3") (lit "out.mp4") (lit "up")
                (Some (lit "http://stt/transcribe"))
                (lit "bg.png") (lit "font.otf")) as [Hok _].
  pose proof (returned_status_is_success
                (Env (Samples.split_env Samples.two_segments)
                     (Samples.transcribe_env Samples.three_chunks
                                             Samples.timeout_on_1)
                     (Samples.video_env Samples.silent_manifest))
                (lit "quran.mp3") (lit "out.mp4") (lit "up")
                (Some (lit "http://stt/transcribe"))
                (lit "bg.png") (lit "font.otf")) as [_ Hfail].
  eexists. split; [reflexivity |]. split.
  - apply (Hok _ eq_refl).
  - apply (Hfail _ eq_refl).
Defined.

Lemma no_endpoint_no_request_witness :
  Transcribe.posted (trace (Samples.pipeline (Some []) Samples.manifest)) = [] /\
  forall p d,
    In (WriteJson p d) (trace (Samples.pipeline (Some []) Samples.manifest)) ->
    p = Split.chunks_json_path (lit "up").
Proof.
  apply (no_endpoint_no_request
           (Env (Samples.split_env Samples.two_segments)
                (Samples.transcribe_env Samples.three_chunks
                                        Samples.timeout_on_1)
                (Samples.video_env Samples.manifest))
           (lit "quran.mp3") (lit "out.mp4") (lit "up") (Some [])
           (lit "bg.png") (lit "font.otf")).
  reflexivity.
Defined.

End PipelineMore.

(* ================================================================= *)
(** ** Where [split_audio] writes, and manifests that are no list *)

Module EdgeFacts.

Lemma startswith_app a x : startswith (a ++ x) a = true.
Proof.
  induction a as [| c a IH]; simpl; [destruct x; reflexivity |].
  rewrite N.eqb_refl. exact IH.
Qed.

(** [os.path.join] keeps the directory in front of a relative name. *)
Lemma path_join_prefix a p :
  startswith p (lit "/") = false -> startswith (path_join a p) a = true.
Proof.
  intros Hp. unfold path_join. rewrite Hp.
  destruct ((match a with [] => true | _ => false end)
            || endswith a (lit "/")); apply startswith_app.
Qed.

Section Split.

Import Split.

Variable E : env.
Variables (audio_path output_dir : pystr).
Variables (min_silence_len silence_thresh_offset keep_silence : Z).
Variable audio_format : pystr.

Lemma export_loop_inside chunks : forall i metadata t,
  Forall (inside output_dir) t ->
  Forall (inside output_dir)
         (snd (export_loop E output_dir chunks i metadata t)).
Proof.
  induction chunks as [| chunk rest IH]; intros i metadata t Ht; simpl;
    [exact Ht |].
  destruct (export E chunk _).
  - apply Forall_app. split; [exact Ht |]. constructor; [| constructor].
    apply path_join_prefix. reflexivity.
  - apply IH. apply Forall_app. split; [exact Ht |].
    constructor; [| constructor].
    apply path_join_prefix. reflexivity.
Qed.

Lemma written_inside t :
  Forall (inside output_dir) t ->
  Forall (fun p => startswith p output_dir = true) (written t).
Proof.
  induction 1 as [| ev t Hev _ IH]; simpl; [constructor |].
  destruct ev; simpl in *; auto.
Qed.

(** X20. Whatever happens, [split_audio] writes inside [output_dir] only:
    the path of every file it exports or writes starts with the directory
    it was given. *)
Theorem split_writes_inside_output_dir :
  Forall (fun p => startswith p output_dir = true)
         (written (snd (split_audio E audio_path output_dir min_silence_len
                                    silence_thresh_offset keep_silence
                                    audio_format))).
Proof.
  apply written_inside. unfold split_audio.
  destruct (path_exists E audio_path); cbn [negb]; [| constructor].
  destruct ((min_silence_len <=? 0) || (silence_thresh_offset <=? 0)
            || (keep_silence <? 0)); [constructor |].
  destruct (makedirs E output_dir); [constructor |].
  assert (H0 : Forall (inside output_dir) [MakeDirs output_dir])
    by (constructor; [exact I | constructor]).
  destruct (detect _ _ _ _ _ _) as [[| chunk rest] | e]; try exact H0.
  pose proof (export_loop_inside (chunk :: rest) 0 [] _ H0) as Hloop.
  destruct (export_loop _ _ _ _ _ _) as [[md | e] t]; simpl in Hloop;
    [| exact Hloop].
  destruct (write_json _ _ _); cbn [snd];
    apply Forall_app; (split; [exact Hloop |]);
    (constructor; [| constructor]);
    apply path_join_prefix; reflexivity.
Qed.

End Split.

Section Video.

Import Video.

Variable E : env.
Variables (output_dir final_video original_audio bg_path font_path : pystr).
Variables (fade_duration min_duration_for_fade : float).
Variables (font_size : Z) (text_color : pystr) (fps : Z).

Local Abbreviation process_item :=
  (process_item E bg_path font_path fade_duration min_duration_for_fade
                font_size text_color).
Local Abbreviation generate_video :=
  (generate_video E output_dir final_video original_audio bg_path font_path
                  fade_duration min_duration_for_fade font_size text_color fps).

Lemma string_item_raises s :
  process_item (JString s) = Raise (Py.no_attribute (JString s) "get").
Proof. reflexivity. Qed.

(** X21. A manifest that is no JSON list never gives a video, and nothing
    is written.  A falsy one ([null], [false], [0], [0.0], the empty string,
    the empty object) raises the [ValueError] of the empty manifest; [true]
    or a number that is not zero raises the [TypeError] of [len(data)]
    ("object of type ... has no len()"); a string or an object that is not
    empty raises, in the loop, the [AttributeError] of its first character
    or key, a [str] without [get]. *)
Theorem manifest_must_be_a_list data :
  path_exists E (transcriptions_path output_dir) = true ->
  path_exists E bg_path = true ->
  path_exists E font_path = true ->
  path_exists E original_audio = true ->
  fltb fade_duration f0 = false -> 0 < font_size -> 0 < fps ->
  json_load E (transcriptions_path output_dir) = Ok data ->
  match data with
  | JArray _ => True
  | JNull => generate_video = (Raise no_transcription_data, [])
  | JBool b =>
      generate_video
      = (Raise (if b then Py.no_len data else no_transcription_data), [])
  | JInt z =>
      generate_video
      = (Raise (if z =? 0 then no_transcription_data else Py.no_len data), [])
  | JFloat f =>
      generate_video
      = (Raise (if feqb f f0 then no_transcription_data else Py.no_len data),
         [])
  | JString [] | JObject [] =>
      generate_video = (Raise no_transcription_data, [])
  | JString (c :: _) =>
      generate_video = (Raise (Py.no_attribute (JString [c]) "get"), [])
  | JObject ((k, _) :: _) =>
      generate_video = (Raise (Py.no_attribute (JString k) "get"), [])
  end /\
  exn_cls no_transcription_data = ValueError /\
  exn_cls (Py.no_len data) = TypeError /\
  (forall s, exn_cls (Py.no_attribute (JString s) "get") = AttributeError).
Proof.
  intros H1 H2 H3 H4 Hfade Hsize Hfps Hload.
  split; [| repeat split].
  unfold Video.generate_video.
  rewrite (VideoMore.collect_clips_checked E output_dir original_audio
             bg_path font_path fade_duration min_duration_for_fade font_size
             text_color fps H1 H2 H3 H4 Hfade Hsize Hfps), Hload.
  cbn [bind].
  destruct data as [| b | z | f | s | l | kv]; try exact I.
  - reflexivity.
  - destruct b; reflexivity.
  - simpl. destruct (z =? 0); reflexivity.
  - simpl. destruct (feqb f f0); reflexivity.
  - destruct s as [| c s]; reflexivity.
  - destruct kv as [| [k v] kv]; reflexivity.
Qed.

End Video.

Lemma manifest_must_be_a_list_witness :
  Samples.video
    (Samples.video_env (JObject [(lit "records", Samples.manifest)])) 24
  = (Raise (Py.no_attribute (JString (lit "records")) "get"), []) /\
  Samples.video (Samples.video_env (JInt 3)) 24
  = (Raise (Py.no_len (JInt 3)), []).
Proof.
  split.
  - exact (proj1 (manifest_must_be_a_list
                    (Samples.video_env
                       (JObject [(lit "records", Samples.manifest)]))
                    (lit "up") (lit "out.mp4") (lit "quran.mp3")
                    (lit "bg.png") (lit "font.otf") f0_8 f1 60 (lit "white")
                    24 (JObject [(lit "records", Samples.manifest)])
                    eq_refl eq_refl eq_refl eq_refl eq_refl eq_refl eq_refl
                    eq_refl)).
  - exact (proj1 (manifest_must_be_a_list
                    (Samples.video_env (JInt 3))
                    (lit "up") (lit "out.mp4") (lit "quran.mp3")
                    (lit "bg.png") (lit "font.otf") f0_8 f1 60 (lit "white")
                    24 (JInt 3)
                    eq_refl eq_refl eq_refl eq_refl eq_refl eq_refl eq_refl
                    eq_refl)).
Defined.

End EdgeFacts.
